(** * AttentionEstimation, Online/SingleStream: the training loop

    A shallow embedding of [train_network] from
    [Online/SingleStream/src/train.py] and the properties of its
    epoch/phase loop: tensor reshaping, loss and accuracy bookkeeping,
    best-checkpoint retention and patience-based early stopping.

    Python values are modelled as follows.
    - [int] is [Z]; [float] is an IEEE 754 binary64 value, [spec_float]
      with precision 53 and maximal exponent 1024, computed with the
      operations of [SpecFloat].
    - Exceptions are the [Raise] branch of the [result] monad.
    - Dictionaries are [gmap string _]; a missing key raises [KeyError].
    - A tensor is a shape, a list of strides and a flat storage, as in
      PyTorch, so that [view] and [transpose] only change the indexing.
    - The network, the loss function and the optimizer are collaborators
      behind the interface [Collaborators]; what [train_network] does to
      them is recorded in a chronological log of events, with what it
      prints. *)

From Stdlib Require Import ZArith QArith Lia.
From Stdlib Require Import Floats.SpecFloat.
From stdpp Require Import base gmap strings list.

Local Open Scope Z_scope.

(** ** Exceptions and the result monad *)

Inductive exn : Type :=
  | NameError (name : string)
  | AttributeError (attr : string)
  | KeyError (key : string)
  | ZeroDivisionError
  | OverflowError
  | RuntimeError (msg : string).

Inductive result (A : Type) : Type :=
  | Ok (a : A)
  | Raise (e : exn).

Arguments Ok {A} a.
Arguments Raise {A} e.

#[global] Instance result_ret : MRet result := fun _ a => Ok a.

#[global] Instance result_bind : MBind result := fun _ _ f r =>
  match r with
  | Ok a => f a
  | Raise e => Raise e
  end.

(** [for x in xs: acc = body(x, acc)], stopping at the first exception. *)
Fixpoint for_each {A S : Type} (body : A -> S -> result S) (xs : list A)
    (s : S) : result S :=
  match xs with
  | [] => Ok s
  | x :: xs' => s' ← body x s; for_each body xs' s'
  end.

(** [d[key]] on a dictionary. *)
Definition getitem {V : Type} (d : gmap string V) (key : string) : result V :=
  match d !! key with
  | Some v => Ok v
  | None => Raise (KeyError key)
  end.

(** ** Python numbers *)

Module PyNum.

Definition prec : Z := 53.
Definition emax : Z := 1024.

Inductive num : Type :=
  | PyInt (z : Z)
  | PyFloat (f : spec_float).

Definition is_infinity (f : spec_float) : bool :=
  match f with S754_infinity _ => true | _ => false end.

Definition is_zero (f : spec_float) : bool :=
  match f with S754_zero _ => true | _ => false end.

Definition is_nan (f : spec_float) : bool :=
  match f with S754_nan => true | _ => false end.

(** [float(z)]: the nearest double, ties to even; too large an integer
    raises [OverflowError]. *)
Definition float_of_int (z : Z) : result spec_float :=
  let f := binary_normalize prec emax z 0 false in
  if is_infinity f then Raise OverflowError else Ok f.

(** [a / b] on two integers: the correctly rounded quotient. *)
Definition int_truediv (a b : Z) : result spec_float :=
  if b =? 0 then Raise ZeroDivisionError
  else if a =? 0 then Ok (S754_zero (b <? 0))
  else
    let q := SFdiv prec emax
               (S754_finite (a <? 0) (Z.to_pos (Z.abs a)) 0)
               (S754_finite (b <? 0) (Z.to_pos (Z.abs b)) 0) in
    if is_infinity q then Raise OverflowError else Ok q.

(** [x / y] on two floats. *)
Definition float_truediv (x y : spec_float) : result spec_float :=
  if is_zero y then Raise ZeroDivisionError else Ok (SFdiv prec emax x y).

Definition to_float (a : num) : result spec_float :=
  match a with
  | PyInt z => float_of_int z
  | PyFloat f => Ok f
  end.

Definition py_add (a b : num) : result num :=
  match a, b with
  | PyInt x, PyInt y => Ok (PyInt (x + y))
  | _, _ => x ← to_float a; y ← to_float b; Ok (PyFloat (SFadd prec emax x y))
  end.

Definition py_mul (a b : num) : result num :=
  match a, b with
  | PyInt x, PyInt y => Ok (PyInt (x * y))
  | _, _ => x ← to_float a; y ← to_float b; Ok (PyFloat (SFmul prec emax x y))
  end.

Definition py_truediv (a b : num) : result num :=
  match a, b with
  | PyInt x, PyInt y => q ← int_truediv x y; Ok (PyFloat q)
  | _, _ => x ← to_float a; y ← to_float b;
            q ← float_truediv x y; Ok (PyFloat q)
  end.

(** Exact comparison of a float with an integer. *)
Definition float_int_compare (f : spec_float) (z : Z) : option comparison :=
  match f with
  | S754_nan => None
  | S754_infinity s => Some (if s then Lt else Gt)
  | S754_zero _ => Some (0 ?= z)
  | S754_finite s m e =>
      let v := cond_Zopp s (Zpos m) in
      Some (if 0 <=? e then v * 2 ^ e ?= z else v ?= z * 2 ^ (- e))
  end.

Definition py_compare (a b : num) : option comparison :=
  match a, b with
  | PyInt x, PyInt y => Some (x ?= y)
  | PyFloat x, PyFloat y => SFcompare x y
  | PyFloat x, PyInt y => float_int_compare x y
  | PyInt x, PyFloat y => CompOpp <$> float_int_compare y x
  end.

(** [a > b] *)
Definition py_gt (a b : num) : bool :=
  match py_compare a b with
  | Some Gt => true
  | _ => false
  end.

(** The rational a finite float stands for. *)
Definition float_value (f : spec_float) : option Q :=
  match f with
  | S754_zero _ => Some 0%Q
  | S754_finite s m e =>
      let v := cond_Zopp s (Zpos m) in
      Some (if 0 <=? e then inject_Z (v * 2 ^ e)
            else Qmake v (Z.to_pos (2 ^ (- e))))
  | _ => None
  end.

(** [max(0, *l)] of Python: the first greatest element, [0] included. *)
Definition py_max0 (l : list num) : num :=
  fold_left (fun best a => if py_gt a best then a else best) l (PyInt 0).

End PyNum.
Import PyNum.

(** ** Tensors *)

Module Tensor.

Record tensor (A : Type) : Type := mkTensor {
  shape : list Z;
  strides : list Z;
  storage : Z -> A
}.

Arguments mkTensor {A} shape strides storage.
Arguments shape {A} t.
Arguments strides {A} t.
Arguments storage {A} t.

Definition numel (sh : list Z) : Z := fold_right Z.mul 1 sh.

(** Row-major strides of a shape. *)
Fixpoint contiguous_strides (sh : list Z) : list Z :=
  match sh with
  | [] => []
  | _ :: rest => numel rest :: contiguous_strides rest
  end.

(** The contiguity test of the library: a tensor with no element is
    contiguous; otherwise, from the last dimension to the first, every
    dimension of size other than 1 has for stride the product of the
    sizes after it, and a dimension of size 1 may have any stride.
    [contiguous_from sh st] is that product when the test passes. *)
Fixpoint contiguous_from (sh st : list Z) : option Z :=
  match sh, st with
  | [], [] => Some 1
  | d :: sh', s :: st' =>
      match contiguous_from sh' st' with
      | Some z =>
          if d =? 1 then Some z
          else if s =? z then Some (z * d) else None
      | None => None
      end
  | _, _ => None
  end.

Definition is_contiguous {A} (t : tensor A) : bool :=
  if numel (shape t) =? 0 then true
  else
    match contiguous_from (shape t) (strides t) with
    | Some _ => true
    | None => false
    end.

(** A freshly collated tensor of a given shape. *)
Definition of_storage {A} (sh : list Z) (data : Z -> A) : tensor A :=
  mkTensor sh (contiguous_strides sh) data.

Fixpoint flat_index (st idx : list Z) : Z :=
  match st, idx with
  | s :: st', i :: idx' => s * i + flat_index st' idx'
  | _, _ => 0
  end.

(** [t[i0, i1, ...]] *)
Definition tget {A} (t : tensor A) (idx : list Z) : A :=
  storage t (flat_index (strides t) idx).

(** The sizes [view] is asked for, with at most one [-1] inferred from
    the number of elements. *)
Definition infer_size (sz : list Z) (n : Z) : result (list Z) :=
  if existsb (fun d => d <? -1) sz
  then Raise (RuntimeError "invalid shape dimension")
  else
    let known := numel (filter (fun d => d ≠ -1) sz) in
    match length (filter (fun d => d = -1) sz) with
    | O => if known =? n then Ok sz
           else Raise (RuntimeError "size is invalid for input")
    | S O => if (0 <? known) && (n mod known =? 0)
             then Ok ((fun d => if d =? -1 then n / known else d) <$> sz)
             else Raise (RuntimeError "size is invalid for input")
    | _ => Raise (RuntimeError "only one dimension can be inferred")
    end.

(** [t.view(sizes)] on a contiguous tensor, which is what the loaders
    collate: the sizes are checked against the number of elements and the
    result shares the storage. A tensor that is not contiguous is refused
    here. *)
Definition view {A} (t : tensor A) (sz : list Z) : result (tensor A) :=
  if is_contiguous t then
    sh ← infer_size sz (numel (shape t));
    Ok (mkTensor sh (contiguous_strides sh) (storage t))
  else Raise (RuntimeError "input is not contiguous").

Definition swap (d0 d1 : nat) (l : list Z) : list Z :=
  match l !! d0, l !! d1 with
  | Some a, Some b => <[d0 := b]> (<[d1 := a]> l)
  | _, _ => l
  end.

(** [t.transpose(d0, d1)]: swaps two sizes and their strides. *)
Definition transpose {A} (d0 d1 : nat) (t : tensor A) : result (tensor A) :=
  if bool_decide (d0 < length (shape t))%nat
     && bool_decide (d1 < length (shape t))%nat
  then Ok (mkTensor (swap d0 d1 (shape t)) (swap d0 d1 (strides t))
             (storage t))
  else Raise (RuntimeError "dimension out of range").

(** Lines 61-62 of [train_network]:
    [inputs.view(-1, window_size, 3, 224, 224).transpose(0, 1)]. *)
Definition reshape_windows {A} (inputs : tensor A) (window_size : Z)
    : result (tensor A) :=
  v ← view inputs [-1; window_size; 3; 224; 224];
  transpose 0 1 v.

End Tensor.
Import Tensor.

(** ** Collaborators: network, loss function, optimizer *)

(** [px] is the type of a pixel, [W] of a state dict (parameters and
    buffers, by value), [G] of the accumulated gradients, [O] of the
    optimizer's own state, [Out] of the scores the network returns and
    [Loss] of the loss variable with its graph. *)
Class Collaborators (px W G O Out Loss : Type) : Type := {
  (** [net.forward(inputs)], in training or evaluation mode *)
  forward : bool -> W -> tensor px -> Out;
  (** [criterion(outputs, labels)] *)
  criterion : Out -> list Z -> Loss;
  (** [loss.data[0]] *)
  loss_item : Loss -> spec_float;
  (** the indices returned by [torch.max(outputs.data, 1)] *)
  torch_max : Out -> list Z;
  (** [optimizer.zero_grad()] *)
  zero_grad : G -> G;
  (** [l.backward()] *)
  backward : Loss -> G -> G;
  (** [optimizer.step()] *)
  optimizer_step : O -> W -> G -> O * W
}.

(** What [train_network] prints. The elapsed time depends on the clock
    and is not represented. *)
Inductive line : Type :=
  | LBlank
  | LEpoch (n : Z)
  | LRule
  | LStats (phase : string) (epoch_loss epoch_acc : num)
  | LElapsed.

Inductive event : Type :=
  | EvPrint (l : line)
  | EvCuda
  | EvTrainMode (b : bool)
  | EvZeroGrad
  | EvForward
  | EvBackward
  | EvStep
  | EvLoadStateDict.

(** [pred == labels], elementwise with broadcasting of a single element. *)
Definition tensor_eq (a b : list Z) : result (list bool) :=
  if bool_decide (length a = length b) then Ok (zip_with Z.eqb a b)
  else match a, b with
       | [x], _ => Ok (Z.eqb x <$> b)
       | _, [x] => Ok ((fun v => Z.eqb v x) <$> a)
       | _, _ => Raise (RuntimeError "inconsistent tensor size")
       end.

(** [torch.sum] of a byte mask: a Python [int], as in the PyTorch
    releases that have [Variable] and [loss.data[0]]. *)
Definition torch_sum (mask : list bool) : Z :=
  Z.of_nat (length (filter (fun b => b = true) mask)).

(** The names bound at module level in [train.py]. *)
Definition module_globals : list string :=
  ["time"; "copy"; "torch"; "Variable"; "train_network"].

Section TrainNetwork.

Context {px W G O Out Loss : Type}.
Context `{!Collaborators px W G O Out Loss}.

(** The network and the optimizer that holds its parameters. *)
Record world : Type := mkWorld {
  weights : W;
  grads : G;
  opt_state : O;
  training : bool;
  on_gpu : bool;
  log : list event
}.

Definition emit (ev : event) (w : world) : world :=
  mkWorld (weights w) (grads w) (opt_state w) (training w) (on_gpu w)
    (log w ++ [ev]).

Definition print (l : line) (w : world) : world := emit (EvPrint l) w.

(** [net.cuda()] *)
Definition cuda (w : world) : world :=
  emit EvCuda
    (mkWorld (weights w) (grads w) (opt_state w) (training w) true (log w)).

(** [net.train(mode)] *)
Definition net_train (mode : bool) (w : world) : world :=
  emit (EvTrainMode mode)
    (mkWorld (weights w) (grads w) (opt_state w) mode (on_gpu w) (log w)).

Definition do_zero_grad (w : world) : world :=
  emit EvZeroGrad
    (mkWorld (weights w) (zero_grad (grads w)) (opt_state w) (training w)
       (on_gpu w) (log w)).

Definition do_forward (inputs : tensor px) (w : world) : Out * world :=
  (forward (training w) (weights w) inputs, emit EvForward w).

Definition do_backward (l : Loss) (w : world) : world :=
  emit EvBackward
    (mkWorld (weights w) (backward l (grads w)) (opt_state w) (training w)
       (on_gpu w) (log w)).

Definition do_step (w : world) : world :=
  let '(o, wts) := optimizer_step (opt_state w) (weights w) (grads w) in
  emit EvStep (mkWorld wts (grads w) o (training w) (on_gpu w) (log w)).

(** [copy.deepcopy(net.state_dict())]: the parameters by value. *)
Definition deepcopy_state_dict (w : world) : W := weights w.

(** [net.load_state_dict(wts)] *)
Definition load_state_dict (wts : W) (w : world) : world :=
  emit EvLoadStateDict
    (mkWorld wts (grads w) (opt_state w) (training w) (on_gpu w) (log w)).

(** The loss variables a name can stand for inside the batch loop:
    [locals] are the local ones; no module-level name is one. *)
Definition load_name (locals : list (string * Loss)) (name : string)
    : result Loss :=
  match list_find (fun '(n, _) => n = name) locals with
  | Some (_, (_, v)) => Ok v
  | None =>
      if bool_decide (name ∈ module_globals)
      then Raise (AttributeError "backward")
      else Raise (NameError name)
  end.

(** One element of a loader: [data['X']] and [data['y']]. *)
Record batch : Type := mkBatch {
  X : tensor px;
  y : list Z
}.

(** [dataloader n] is what the [n]-th pass over a loader yields (a
    shuffling loader yields another order at every pass);
    [train_network] makes one pass per epoch over each loader. *)
Definition dataloader : Type := nat -> list batch.

Variable dataloaders : gmap string dataloader.
Variable dataset_sizes : gmap string Z.
Variable batch_size sequence_len window_size : Z.
Variable gpu : bool.

(** The statistics of a phase: the network, [running_loss] and
    [running_correct]. *)
Definition stats : Type := world * num * Z.

(** Lines 58-86: the body of the loop over the batches of a phase. The
    [Variable] wrappers and the moves to the GPU of lines 64-69 leave the
    values as they are and are not represented. *)
Definition batch_body (phase : string) (data : batch) (s : stats)
    : result stats :=
  let '(w, running_loss, running_correct) := s in
  let labels := y data in
  inputs ← reshape_windows (X data) window_size;
  let w := do_zero_grad w in
  let '(outputs, w) := do_forward inputs w in
  let loss := criterion outputs labels in
  let pred := torch_max outputs in
  mask ← tensor_eq pred labels;
  let correct := torch_sum mask in
  w ← (if bool_decide (phase = "Train")
       then sequence_loss ← load_name [("loss", loss)] "sequence_loss";
            Ok (do_step (do_backward sequence_loss w))
       else Ok w);
  running_loss ← py_add running_loss (PyFloat (loss_item loss));
  Ok (w, running_loss, running_correct + correct).

Record loop_state : Type := mkLoop {
  net : world;
  best_model_wts : W;
  best_acc : num;
  losses : gmap string (list num);
  accuracies : gmap string (list num);
  patience : Z
}.

(** [d[phase].append(v)] *)
Definition append_to (d : gmap string (list num)) (phase : string)
    (v : num) : result (gmap string (list num)) :=
  l ← getitem d phase; Ok (<[phase := l ++ [v]]> d).

(** Lines 48-102: the body of the loop over the two phases. *)
Definition phase_body (epoch : nat) (phase : string) (st : loop_state)
    : result loop_state :=
  let w := net_train (bool_decide (phase = "Train")) (net st) in
  loader ← getitem dataloaders phase;
  '(w, running_loss, running_correct) ←
    for_each (batch_body phase) (loader epoch) (w, PyInt 0, 0);
  scaled ← py_mul running_loss (PyInt batch_size);
  size ← getitem dataset_sizes phase;
  epoch_loss ← py_truediv scaled (PyInt size);
  size ← getitem dataset_sizes phase;
  epoch_acc ← py_truediv (PyInt running_correct)
                (PyInt (size * (sequence_len - window_size + 1)));
  let w := print (LStats phase epoch_loss epoch_acc) w in
  losses' ← append_to (losses st) phase epoch_loss;
  accuracies' ← append_to (accuracies st) phase epoch_acc;
  if bool_decide (phase = "Valid") then
    let patience' := patience st + 1 in
    if py_gt epoch_acc (best_acc st) then
      Ok (mkLoop w (deepcopy_state_dict w) epoch_acc losses' accuracies' 0)
    else
      Ok (mkLoop w (best_model_wts st) (best_acc st) losses' accuracies'
            patience')
  else
    Ok (mkLoop w (best_model_wts st) (best_acc st) losses' accuracies'
          (patience st)).

(** Lines 43-102: one epoch, a training and a validation phase. *)
Definition epoch_body (epoch : nat) (st : loop_state) : result loop_state :=
  let w := print LBlank (net st) in
  let w := print (LEpoch (Z.of_nat epoch + 1)) w in
  let w := print LRule w in
  for_each (phase_body epoch) ["Train"; "Valid"]
    (mkLoop w (best_model_wts st) (best_acc st) (losses st) (accuracies st)
       (patience st)).

(** Lines 42-105: the loop over the epochs, left when [patience == 20]. *)
Fixpoint epoch_loop (epochs : list nat) (st : loop_state)
    : result loop_state :=
  match epochs with
  | [] => Ok st
  | epoch :: rest =>
      st' ← epoch_body epoch st;
      if patience st' =? 20 then Ok st' else epoch_loop rest st'
  end.

(** The state before the first epoch, lines 33-41. *)
Definition initial_state (w0 : world) : loop_state :=
  let w := if gpu then cuda w0 else w0 in
  mkLoop w (deepcopy_state_dict w) (PyInt 0)
    {["Train" := []; "Valid" := []]} {["Train" := []; "Valid" := []]} 0.

(** [range(max_epochs)] *)
Definition range (n : Z) : list nat := seq 0 (Z.to_nat n).

(** What [train_network] returns: the network, the best validation
    accuracy, the losses and the accuracies. *)
Definition outcome : Type :=
  world * num * gmap string (list num) * gmap string (list num).

(** Lines 107-115: after the loop, the elapsed time is printed and the
    best parameters are loaded into the network. *)
Definition finish (st : loop_state) : outcome :=
  let w := print LBlank (net st) in
  let w := print LElapsed w in
  let w := load_state_dict (best_model_wts st) w in
  (w, best_acc st, losses st, accuracies st).

Definition train_network (w0 : world) (max_epochs : Z) : result outcome :=
  st ← epoch_loop (range max_epochs) (initial_state w0);
  Ok (finish st).

End TrainNetwork.

(** ** Notions the properties are stated with *)

(** The number of scalars of one frame, [3 * 224 * 224]. *)
Definition frame : Z := 3 * 224 * 224.

(** The values [train_network] compares: the integer [0] and floats
    other than NaN. *)
Definition comparable (a : num) : Prop :=
  match a with
  | PyInt z => z = 0
  | PyFloat f => is_nan f = false
  end.

(** A key whose lexicographic order is the order of [py_compare] on
    comparable values. *)
Definition key (a : num) : Z * Z * Z :=
  match a with
  | PyInt _ | PyFloat (S754_zero _) | PyFloat S754_nan => (0, 0, 0)
  | PyFloat (S754_infinity s) => (if s then -2 else 2, 0, 0)
  | PyFloat (S754_finite s m e) =>
      if s then (-1, - e, - Zpos m) else (1, e, Zpos m)
  end.

Definition key_lt (x y : Z * Z * Z) : Prop :=
  x.1.1 < y.1.1 \/
  (x.1.1 = y.1.1 /\ (x.1.2 < y.1.2 \/ (x.1.2 = y.1.2 /\ x.2 < y.2))).

(** The lines among the events, in the order they were printed. *)
Definition printed (evs : list event) : list line :=
  omap (fun ev => match ev with EvPrint l => Some l | _ => None end) evs.

#[global] Instance num_inhabited : Inhabited num := populate (PyInt 0).

(** What epoch [i] prints when its statistics are the [i]-th entries of
    the four lists. *)
Definition epoch_report (tl ta vl va : list num) (i : nat) : list line :=
  [LBlank; LEpoch (Z.of_nat i + 1); LRule;
   LStats "Train" (tl !!! i) (ta !!! i);
   LStats "Valid" (vl !!! i) (va !!! i)].

(** The checkpoint tracker run on a list of validation accuracies: the
    best accuracy and the patience. *)
Definition track (s : num * Z) (a : num) : num * Z :=
  if py_gt a s.1 then (a, 0) else (s.1, s.2 + 1).

Definition tracker (l : list num) : num * Z := fold_left track l (PyInt 0, 0).

(** Epoch [i] did not strictly improve on the best accuracy before it. *)
Definition stalled (l : list num) (i : nat) : Prop :=
  exists a, l !! i = Some a /\ py_gt a (py_max0 (take i l)) = false.

Definition stalledb (l : list num) (i : nat) : bool :=
  match l !! i with
  | Some a => negb (py_gt a (py_max0 (take i l)))
  | None => false
  end.

Section Notions.

Context {px W G O Out Loss : Type}.
Context `{!Collaborators px W G O Out Loss}.

(** The loss value and the number of correct predictions of one batch,
    for a network in the state [w]. *)
Definition batch_values (window_size : Z) (w : @world W G O)
    (data : @batch px) (v : spec_float * Z) : Prop :=
  exists inputs mask,
    reshape_windows (X data) window_size = Ok inputs /\
    tensor_eq (torch_max (forward (training w) (weights w) inputs)) (y data)
      = Ok mask /\
    v = (loss_item (criterion (forward (training w) (weights w) inputs)
                      (y data)),
         torch_sum mask).

(** [running_loss] after adding the loss values [ls] one by one. *)
Definition sum_losses (ls : list spec_float) (start : num) : result num :=
  for_each (fun l acc => py_add acc (PyFloat l)) ls start.

(** What a batch does to the collaborators in an evaluation phase. *)
Definition batch_event (ev : event) : Prop :=
  ev = EvZeroGrad \/ ev = EvForward.

Variable dataloaders : gmap string (@dataloader px).
Variable dataset_sizes : gmap string Z.
Variable batch_size sequence_len window_size : Z.
Variable gpu : bool.

(** [executed st0 n st]: [st] is the state after [n] epochs of the loop
    started in [st0]; the loop goes on while the patience is not 20. *)
Inductive executed (st0 : @loop_state W G O)
    : nat -> @loop_state W G O -> Prop :=
  | executed_O : executed st0 0 st0
  | executed_S n st st' :
      executed st0 n st ->
      n = 0%nat \/ patience st <> 20 ->
      epoch_body dataloaders dataset_sizes batch_size sequence_len
        window_size n st = Ok st' ->
      executed st0 (S n) st'.

Variable w0 : @world W G O.

(** The best-model record: no accuracy of [va] is greater than [b], and
    either [b] is [0] and [wts] are the initial parameters, or [b] is
    positive, epoch [k] is the first to reach it and [wts] are the
    parameters of the network at the end of epoch [k]. *)
Definition best_record (va : list num) (b : num) (wts : W) : Prop :=
  (forall x, x ∈ va -> py_gt x b = false) /\
  ((b = PyInt 0 /\ wts = weights w0) \/
   (exists k st_k,
      va !! k = Some b /\
      py_gt b (PyInt 0) = true /\
      (forall j x, (j < k)%nat -> va !! j = Some x -> py_gt b x = true) /\
      epoch_loop dataloaders dataset_sizes batch_size sequence_len
        window_size (seq 0 (S k)) (initial_state gpu w0) = Ok st_k /\
      wts = weights (net st_k))).

(** The invariant of the loop over the epochs, after [n] epochs. *)
Record run_inv (n : nat) (st : @loop_state W G O)
    (tl ta vl va : list num) : Prop := {
  inv_tl : losses st !! "Train" = Some tl;
  inv_ta : accuracies st !! "Train" = Some ta;
  inv_vl : losses st !! "Valid" = Some vl;
  inv_va : accuracies st !! "Valid" = Some va;
  inv_len : length tl = n /\ length ta = n /\ length vl = n /\ length va = n;
  inv_printed :
    printed (log (net st)) =
      printed (log w0) ++ flat_map (epoch_report tl ta vl va) (seq 0 n);
  inv_comparable : Forall comparable va;
  inv_best_comparable : comparable (best_acc st);
  inv_tracker : (best_acc st, patience st) = tracker va;
  inv_running : forall i, (i < n)%nat -> (tracker (take i va)).2 <> 20;
  inv_record : best_record va (best_acc st) (best_model_wts st)
}.

End Notions.

(** ** A small instance to run the code on *)

Module Toy.

(** Pixels, parameters, gradients and the optimizer state are integers;
    the network answers, for each window, the parity of the first pixel
    of its first frame plus the parameter; the loss counts the wrong
    answers. *)
#[export] Instance toy : Collaborators Z Z Z Z (list Z) Z := {|
  forward := fun _ wts inputs =>
    (fun b => (tget inputs [0; Z.of_nat b; 0; 0; 0] + wts) mod 2)
      <$> seq 0 (Z.to_nat (default 0 (shape inputs !! 1%nat)));
  criterion := fun out labels =>
    Z.of_nat (length (filter (fun p => p.1 ≠ p.2) (zip out labels)));
  loss_item := fun l => binary_normalize prec emax l 0 false;
  torch_max := fun out => out;
  zero_grad := fun _ => 0;
  backward := fun l g => g + l;
  optimizer_step := fun o w g => (o + 1, w - g)
|}.

Definition toy_world : @world Z Z Z := mkWorld 0 0 0 false false [].

(** [videos] videos of [windows] windows of five frames; every pixel of
    a frame holds the index of the frame. Window [b] is answered
    [b mod 2]. *)
Definition toy_batch (videos windows : Z) (labels : list Z) : @batch Z :=
  mkBatch
    (of_storage [videos; windows; 5; 3; 224; 224] (fun k => k / frame))
    labels.

Definition toy_sizes : gmap string Z := {["Train" := 4; "Valid" := 4]}.

(** Validation accuracies 0.25, 0.75, 0.75, 0.5, ... on four windows. *)
Definition varying_valid : @dataloader Z := fun epoch =>
  match epoch with
  | 0%nat => [toy_batch 1 4 [0; 0; 1; 0]]
  | 1%nat | 2%nat => [toy_batch 1 4 [0; 1; 0; 0]]
  | _ => [toy_batch 1 2 [0; 1]; toy_batch 1 2 [1; 0]]
  end.

Definition toy_loaders (train valid : @dataloader Z)
    : gmap string (@dataloader Z) :=
  {["Train" := train; "Valid" := valid]}.

Definition no_batches : @dataloader Z := fun _ => [].

(** Four epochs with varying accuracies. *)
Definition varying_run : result (@outcome Z Z Z) :=
  train_network (toy_loaders no_batches varying_valid) toy_sizes 1 5 5 false
    toy_world 4.

(** Thirty epochs allowed, the same accuracy 0.5 at each. *)
Definition constant_valid : @dataloader Z :=
  fun _ => [toy_batch 1 4 [0; 0; 0; 0]].

Definition constant_run : result (@outcome Z Z Z) :=
  train_network (toy_loaders no_batches constant_valid) toy_sizes 1 5 5 false
    toy_world 30.

(** Three epochs, no correct answer at any. *)
Definition wrong_valid : @dataloader Z :=
  fun _ => [toy_batch 1 4 [1; 0; 1; 0]].

Definition wrong_run : result (@outcome Z Z Z) :=
  train_network (toy_loaders no_batches wrong_valid) toy_sizes 1 5 5 true
    toy_world 3.

(** One training batch. *)
Definition failing_run : result (@outcome Z Z Z) :=
  train_network (toy_loaders constant_valid constant_valid) toy_sizes 1 5 5
    false toy_world 1.

(** Ten videos of fifty frames, windows of five frames, two videos per
    batch: 460 windows, of which every second one is answered right. *)
Definition half_valid : @dataloader Z :=
  fun _ => replicate 5 (toy_batch 2 46 (replicate 92 0)).

Definition half_sizes : gmap string Z := {["Train" := 10; "Valid" := 10]}.

Definition half_state : @loop_state Z Z Z := initial_state false toy_world.

Definition half_phase : result (@loop_state Z Z Z) :=
  phase_body (toy_loaders no_batches half_valid) half_sizes 2 50 5 0 "Valid"
    half_state.

Definition unwrap {A} (d : A) (r : result A) : A :=
  match r with Ok a => a | Raise _ => d end.

Definition half_done : @loop_state Z Z Z := unwrap half_state half_phase.

(** One validation batch on its own. *)
Definition valid_step : @stats Z Z Z :=
  unwrap (toy_world, PyInt 0, 0)
    (batch_body 5 "Valid" (toy_batch 1 4 [0; 0; 0; 0])
       (toy_world, PyInt 0, 0)).

Definition no_outcome : @outcome Z Z Z := (toy_world, PyInt 0, ∅, ∅).

Definition varying_outcome : @outcome Z Z Z := unwrap no_outcome varying_run.
Definition constant_outcome : @outcome Z Z Z :=
  unwrap no_outcome constant_run.
Definition wrong_outcome : @outcome Z Z Z := unwrap no_outcome wrong_run.

(** The raw batch of the reshape example: six frames, each pixel
    holding its flat index. *)
Definition six_frames : tensor Z := of_storage [6; 3; 224; 224] (fun k => k).

End Toy.
Import Toy.

(** ** Notions for the further properties *)

(** The events that change the parameters. *)
Definition updates_parameters (ev : event) : Prop :=
  ev = EvBackward \/ ev = EvStep.

(** The float zero, of either sign. *)
Definition float_zero (a : num) : Prop :=
  exists s, a = PyFloat (S754_zero s).

(** [idx] is an index of a tensor of shape [sh]. *)
Definition in_range (sh idx : list Z) : Prop :=
  Forall2 (fun d i => 0 <= i < d) sh idx.

(** ** The script [main.py] *)

(** What [main] does besides training: it prints the network, plots the
    histories and saves the parameters. *)
Inductive main_event (W : Type) : Type :=
  | MainPrintNet (state_dict : W)
  | MainPlot (losses accuracies : gmap string (list num)) (path : string)
  | MainSave (state_dict : W) (path : string).

Arguments MainPrintNet {W} state_dict.
Arguments MainPlot {W} losses accuracies path.
Arguments MainSave {W} state_dict path.

(** The literal [1e-4]. *)
Definition learning_rate : spec_float :=
  S754_finite false 7378697629483821 (-66).

Section Main.

Context {px W G O Out Loss : Type}.
Context `{!Collaborators px W G O Out Loss}.

(** The functions [main] takes from the rest of the repository and from
    the libraries, as parameters: [torch.cuda.is_available()],
    [get_loaders] of [dataloader.py], the parameters and the empty
    gradients of [SingleStream(...)] of [model.py], and the state of
    [torch.optim.Adam(net.parameters(), learning_rate)]. *)
Variable cuda_is_available : bool.
Variable get_loaders :
  string -> string -> Z -> Z -> Z -> bool -> Z -> bool ->
  result (gmap string (@dataloader px) * gmap string Z).
Variable SingleStream : string -> Z -> Z -> bool -> W * G.
Variable Adam : W -> spec_float -> O.

(** Lines 11-54 of [main.py]. *)
Definition main : result (list (main_event W)) :=
  let gpu := cuda_is_available in
  let train_path := "data/train_data.txt" in
  let valid_path := "data/valid_data.txt" in
  let batch_size := 2 in
  let sequence_len := 50 in
  let window_size := 5 in
  let flow := false in
  let num_workers := 2 in
  let model := "VGGNet19" in
  let rnn_hidden := 512 in
  let rnn_layers := 1 in
  let max_epochs := 1 in
  '(dataloaders, dataset_sizes) ←
    get_loaders train_path valid_path batch_size sequence_len window_size
      flow num_workers gpu;
  let '(wts, no_grads) := SingleStream model rnn_hidden rnn_layers true in
  let optimizer := Adam wts learning_rate in
  let net := mkWorld wts no_grads optimizer true false [] in
  '(net', val_acc, losses, accuracies) ←
    train_network dataloaders dataset_sizes batch_size sequence_len
      window_size gpu net max_epochs;
  let '(s_plots, s_params) :=
    if flow : bool
    then ("outputs/online/SingleStreamFlowPlots.png",
          "outputs/online/SingleStreamFlowParams.pkl")
    else ("outputs/online/SingleStreamAppPlots.png",
          "outputs/online/SingleStreamAppParams.pkl") in
  Ok [MainPrintNet wts; MainPlot losses accuracies s_plots;
      MainSave (weights net') s_params].

End Main.

(** ** Further runs of the small instance *)

Module ToyRuns.

(** Two epochs of the run with varying accuracies. *)
Definition short_run : result (@outcome Z Z Z) :=
  train_network (toy_loaders no_batches varying_valid) toy_sizes 1 5 5 false
    toy_world 2.

Definition short_outcome : @outcome Z Z Z := unwrap no_outcome short_run.

Definition zero_sizes : gmap string Z := {["Train" := 0; "Valid" := 4]}.

Definition six_windows : tensor Z :=
  unwrap six_frames (reshape_windows six_frames 3).

(** The collaborators of [main]: ten videos for validation, and either no
    training batch or the same batches for training. *)
Definition get_no_training (_ _ : string) (_ _ _ : Z) (_ : bool) (_ : Z)
    (_ : bool) : result (gmap string (@dataloader Z) * gmap string Z) :=
  Ok (toy_loaders no_batches half_valid, half_sizes).

Definition get_training (_ _ : string) (_ _ _ : Z) (_ : bool) (_ : Z)
    (_ : bool) : result (gmap string (@dataloader Z) * gmap string Z) :=
  Ok (toy_loaders half_valid half_valid, half_sizes).

Definition build_net (_ : string) (_ _ : Z) (_ : bool) : Z * Z := (7, 0).

Definition build_optimizer (_ : Z) (_ : spec_float) : Z := 0.

Definition quiet_main : result (list (main_event Z)) :=
  main true get_no_training build_net build_optimizer.

Definition quiet_main_events : list (main_event Z) := unwrap [] quiet_main.

(** The first epoch of the run with varying accuracies. *)
Definition first_epoch : result (@loop_state Z Z Z) :=
  epoch_body (toy_loaders no_batches varying_valid) toy_sizes 1 5 5 0
    (initial_state false toy_world).

Definition first_epoch_done : @loop_state Z Z Z :=
  unwrap (initial_state false toy_world) first_epoch.

End ToyRuns.

(** ** The tracker from any state of the loop *)

Section Tracking.

Context {px W G O Out Loss : Type}.
Context `{!Collaborators px W G O Out Loss}.
Variable dataloaders : gmap string (@dataloader px).
Variable dataset_sizes : gmap string Z.
Variable batch_size sequence_len window_size : Z.

(** The best-model record after the loop was run from the state [st0],
    whatever parameters the network and the snapshot of [st0] hold, and
    recorded the validation accuracies [new]: no accuracy of [new] is
    greater than [b], and either none was greater than the best accuracy
    of [st0], which [b] still is, with [wts] the snapshot of [st0]; or
    [b] is greater than it, epoch [k] is the first to reach [b] and
    [wts] are the parameters of the network at the end of epoch [k]. *)
Definition tracked_from (st0 : @loop_state W G O) (new : list num) (b : num)
    (wts : W) : Prop :=
  (forall x, x ∈ new -> py_gt x b = false) /\
  ((b = best_acc st0 /\ wts = best_model_wts st0 /\
    forall x, x ∈ new -> py_gt x (best_acc st0) = false) \/
   (exists k st_k,
      new !! k = Some b /\
      py_gt b (best_acc st0) = true /\
      (forall j x, (j < k)%nat -> new !! j = Some x -> py_gt b x = true) /\
      epoch_loop dataloaders dataset_sizes batch_size sequence_len
        window_size (seq 0 (S k)) st0 = Ok st_k /\
      wts = weights (net st_k))).

End Tracking.

(** ** Integer-valued floats *)

#[global] Instance spec_float_eq_dec : EqDecision spec_float.
Proof. solve_decision. Defined.

(** The float nearest to the integer [z]: [float(z)]. *)
Definition float_of (z : Z) : spec_float := binary_normalize prec emax z 0 false.

(** The integers from [a] to [b]. *)
Definition interval (a b : Z) : list Z :=
  (fun i => a + Z.of_nat i) <$> seq 0 (Z.to_nat (b - a + 1)).

(** Checks that float addition is the exact sum on the integers
    [0 <= s] and [0 <= l] with [s + l <= n]. *)
Definition sums_exact (n : Z) : bool :=
  forallb (fun s =>
    forallb (fun l =>
      bool_decide (SFadd prec emax (float_of s) (float_of l)
                   = float_of (s + l)))
      (interval 0 (n - s)))
    (interval 0 n).

(** Checks that float multiplication is the exact product on the
    integers [0 <= p <= n] and [1 <= b <= m]. *)
Definition products_exact (n m : Z) : bool :=
  forallb (fun p =>
    forallb (fun b =>
      bool_decide (SFmul prec emax (float_of p) (float_of b)
                   = float_of (p * b)))
      (interval 1 m))
    (interval 0 n).

(** Checks that float division is the exact quotient of [k * d] by [d],
    for [1 <= d <= m] and [0 <= k * d <= n]. *)
Definition quotients_exact (n m : Z) : bool :=
  forallb (fun d =>
    forallb (fun k =>
      bool_decide (SFdiv prec emax (float_of (k * d)) (float_of d)
                   = float_of k))
      (interval 0 (n / d)))
    (interval 1 m).

(** Checks that [float_of z] is not an infinity, stands for [z] and, for
    [z] other than 0, is not a zero, for [0 <= z <= n]. *)
Definition values_exact (n : Z) : bool :=
  forallb (fun z =>
    negb (is_infinity (float_of z)) &&
    (bool_decide (z = 0) || negb (is_zero (float_of z))) &&
    match float_value (float_of z) with
    | Some q => Qeq_bool q (inject_Z z)
    | None => false
    end)
    (interval 0 n).

(** ** The script, with what it did before it ended *)

Section MainTrace.

Context {px W G O Out Loss : Type}.
Context `{!Collaborators px W G O Out Loss}.
Variable cuda_is_available : bool.
Variable get_loaders :
  string -> string -> Z -> Z -> Z -> bool -> Z -> bool ->
  result (gmap string (@dataloader px) * gmap string Z).
Variable SingleStream : string -> Z -> Z -> bool -> W * G.
Variable Adam : W -> spec_float -> O.

(** Lines 11-54 of [main.py] again, keeping what [main] had done when an
    exception ended it: the events so far, and the exception if any. *)
Definition main_trace : list (main_event W) * option exn :=
  let gpu := cuda_is_available in
  match get_loaders "data/train_data.txt" "data/valid_data.txt" 2 50 5
          false 2 gpu with
  | Raise e => ([], Some e)
  | Ok (dataloaders, dataset_sizes) =>
      let '(wts, no_grads) := SingleStream "VGGNet19" 512 1 true in
      let done := [MainPrintNet wts] in
      let optimizer := Adam wts learning_rate in
      let net := mkWorld wts no_grads optimizer true false [] in
      match train_network dataloaders dataset_sizes 2 50 5 gpu net 1 with
      | Raise e => (done, Some e)
      | Ok (net', val_acc, losses, accuracies) =>
          (done ++
           [MainPlot losses accuracies
              "outputs/online/SingleStreamAppPlots.png";
            MainSave (weights net')
              "outputs/online/SingleStreamAppParams.pkl"],
           None)
      end
  end.

End MainTrace.

(** ** States in the middle of a run of the small instance *)

Module ToyResume.

Definition zero : num := PyFloat (S754_zero false).
Definition one_half : num := PyFloat (S754_finite false 4503599627370496 (-53)).
Definition one_quarter : num :=
  PyFloat (S754_finite false 4503599627370496 (-54)).
Definition three_quarters : num :=
  PyFloat (S754_finite false 6755399441055744 (-53)).

(** The accuracies of the four epochs of [varying_valid]. *)
Definition later : list num :=
  [one_quarter; three_quarters; three_quarters; one_half].

(** A state of the loop whose snapshot holds the parameters 42 while the
    network holds the parameters 0, with [best] for best accuracy. *)
Definition resumed (best : num) : @loop_state Z Z Z :=
  mkLoop toy_world 42 best
    {["Train" := [zero]; "Valid" := [zero]]}
    {["Train" := [zero]; "Valid" := [best]]} 0.

(** Four epochs from there, with the accuracies 0.25, 0.75, 0.75, 0.5. *)
Definition resumed_run (best : num) : result (@loop_state Z Z Z) :=
  epoch_loop (toy_loaders no_batches varying_valid) toy_sizes 1 5 5 (seq 0 4)
    (resumed best).

Definition improved : @loop_state Z Z Z :=
  unwrap (resumed one_half) (resumed_run one_half).

Definition kept : @loop_state Z Z Z :=
  unwrap (resumed three_quarters) (resumed_run three_quarters).

End ToyResume.

(** * Properties *)

(** ** Python numbers *)

Section RoundingSign.

Variables p e_max : Z.

Lemma iter_pos_invariant {A} (P : A -> Prop) (f : A -> A) :
  (forall x, P x -> P (f x)) -> forall n x, P x -> P (SpecFloat.iter_pos f n x).
Proof.
  intros Hf. induction n as [n IH | n IH |]; intros x Hx; simpl; auto.
Qed.

Lemma shr_1_nonneg mrs : 0 <= shr_m mrs -> 0 <= shr_m (shr_1 mrs).
Proof.
  destruct mrs as [m r s]. simpl.
  destruct m as [| [q | q |] | [q | q |]]; simpl; lia.
Qed.

Lemma shr_nonneg mrs e n : 0 <= shr_m mrs -> 0 <= shr_m (shr mrs e n).1.
Proof.
  intros H. destruct n; simpl; auto.
  apply (iter_pos_invariant (fun x => 0 <= shr_m x)); auto using shr_1_nonneg.
Qed.

Lemma shr_fexp_nonneg m e l :
  0 <= m -> 0 <= shr_m (shr_fexp p e_max m e l).1.
Proof.
  intros H. unfold shr_fexp. apply shr_nonneg.
  destruct l as [| []]; simpl; exact H.
Qed.

Lemma round_nearest_even_nonneg m l : 0 <= m -> 0 <= round_nearest_even m l.
Proof.
  intros H. unfold round_nearest_even.
  destruct l as [| []]; try destruct (Z.even m); lia.
Qed.

Lemma binary_round_aux_not_nan s m e l :
  0 <= m -> is_nan (binary_round_aux p e_max s m e l) = false.
Proof.
  intros H. unfold binary_round_aux.
  pose proof (shr_fexp_nonneg m e l H) as H1.
  destruct (shr_fexp p e_max m e l) as [mrs' e'] eqn:E1. simpl in H1.
  pose proof (shr_fexp_nonneg _ e' loc_Exact
    (round_nearest_even_nonneg _ (loc_of_shr_record mrs') H1)) as H2.
  destruct (shr_fexp p e_max _ e' loc_Exact) as [mrs'' e''] eqn:E2.
  simpl in H2.
  destruct (shr_m mrs'') as [| q | q]; [reflexivity | | lia].
  destruct (e'' <=? e_max - p); reflexivity.
Qed.

Lemma SFdiv_finite_not_nan sx mx ex sy my ey :
  is_nan (SFdiv p e_max (S754_finite sx mx ex) (S754_finite sy my ey)) = false.
Proof.
  unfold SFdiv, SFdiv_core_binary.
  match goal with
  | |- context [Z.div_eucl ?a ?b] =>
      pose proof (Z_div_mod a b eq_refl) as Hdm;
      assert (0 <= a) as Ha;
      [| destruct (Z.div_eucl a b) as [q r] eqn:E]
  end.
  - match goal with |- 0 <= match ?s with _ => _ end => destruct s eqn:Es end;
      try lia.
    apply Z.shiftl_nonneg. lia.
  - apply binary_round_aux_not_nan. nia.
Qed.

End RoundingSign.

Lemma int_truediv_not_nan a b f : int_truediv a b = Ok f -> is_nan f = false.
Proof.
  unfold int_truediv. intros H.
  destruct (b =? 0); [discriminate |].
  destruct (a =? 0); [injection H as <-; reflexivity |].
  destruct (is_infinity _); [discriminate |].
  injection H as <-. apply SFdiv_finite_not_nan.
Qed.

Lemma float_int_compare_0 f :
  is_nan f = false ->
  float_int_compare f 0 = SFcompare f (S754_zero false).
Proof.
  destruct f as [s | s | | s m e]; simpl; try discriminate; try reflexivity.
  intros _. f_equal.
  assert (0 < 2 ^ e \/ e < 0) as He.
  { destruct (Z_lt_le_dec e 0); [right; lia | left].
    apply Z.pow_pos_nonneg; lia. }
  destruct s; simpl; destruct (Z.leb_spec 0 e).
  - apply Z.compare_lt_iff. nia.
  - reflexivity.
  - apply Z.compare_gt_iff. nia.
  - reflexivity.
Qed.

Lemma SFcompare_key x y :
  is_nan x = false -> is_nan y = false ->
  (SFcompare x y = Some Gt <-> key_lt (key (PyFloat y)) (key (PyFloat x))).
Proof.
  unfold key_lt.
  destruct x as [sx | sx | | sx mx ex], y as [sy | sy | | sy my ey];
    try discriminate; intros _ _; simpl;
    try change (PosDef.Pos.compare_cont Eq mx my) with (Pos.compare mx my);
    destruct sx, sy; simpl;
    try (destruct (Z.compare_spec ex ey); destruct (Pos.compare_spec mx my);
         simpl);
    (split; [try discriminate; intros _; lia
            | intros ?; try reflexivity; exfalso; lia]).
Qed.

Lemma py_gt_key a b :
  comparable a -> comparable b ->
  (py_gt a b = true <-> key_lt (key b) (key a)).
Proof.
  intros Ha Hb. unfold py_gt.
  assert (forall c : option comparison,
    match c with Some Gt => true | _ => false end = true <-> c = Some Gt) as Hc.
  { intros [[]|]; split; congruence. }
  rewrite Hc. clear Hc.
  destruct a as [x | x], b as [z | z]; simpl in Ha, Hb; subst; simpl py_compare.
  - unfold key_lt; simpl. split; [discriminate | lia].
  - rewrite float_int_compare_0 by done.
    rewrite <- (SFcompare_key (S754_zero false) z) by done.
    destruct z as [[] | [] | | [] ? ?]; simpl; split; congruence.
  - rewrite float_int_compare_0 by done.
    apply (SFcompare_key x (S754_zero false)); done.
  - apply SFcompare_key; done.
Qed.

Lemma py_gt_irrefl a : comparable a -> py_gt a a = false.
Proof.
  intros Ha. apply not_true_is_false. rewrite py_gt_key by done.
  unfold key_lt. lia.
Qed.

(** [a <= b < c] gives [a < c] ... *)
Lemma py_gt_le_lt a b c :
  comparable a -> comparable b -> comparable c ->
  py_gt a b = false -> py_gt c b = true -> py_gt c a = true.
Proof.
  intros Ha Hb Hc Hab. apply not_true_iff_false in Hab. revert Hab.
  rewrite !py_gt_key by done. unfold key_lt. lia.
Qed.

(** ... and [b < c] gives [a <= c] from [a <= b]. *)
Lemma py_gt_le_trans a b c :
  comparable a -> comparable b -> comparable c ->
  py_gt a b = false -> py_gt c b = true -> py_gt a c = false.
Proof.
  intros Ha Hb Hc Hab Hcb. apply not_true_iff_false.
  apply not_true_iff_false in Hab. revert Hab Hcb.
  rewrite !py_gt_key by done. unfold key_lt. lia.
Qed.

Lemma py_gt_trans a b c :
  comparable a -> comparable b -> comparable c ->
  py_gt a b = true -> py_gt b c = true -> py_gt a c = true.
Proof.
  intros Ha Hb Hc. rewrite !py_gt_key by done. unfold key_lt. lia.
Qed.

(** ** Reshaping *)

Lemma contiguous_from_row_major (sh : list Z) :
  contiguous_from sh (contiguous_strides sh) = Some (numel sh).
Proof.
  induction sh as [| d sh IH]; [reflexivity |].
  cbn [contiguous_from contiguous_strides]. rewrite IH.
  destruct (Z.eqb_spec d 1) as [-> | Hd].
  - cbn [numel fold_right]. by rewrite Z.mul_1_l.
  - rewrite Z.eqb_refl. cbn [numel fold_right]. by rewrite Z.mul_comm.
Qed.

Lemma of_storage_contiguous {A} (sh : list Z) (data : Z -> A) :
  is_contiguous (of_storage sh data) = true.
Proof.
  unfold is_contiguous, of_storage. cbn [shape strides].
  rewrite contiguous_from_row_major. by destruct (_ =? _).
Qed.

Lemma view_windows {A} (t : tensor A) (n ws : Z) :
  is_contiguous t = true -> 0 < ws -> numel (shape t) = n * ws * frame ->
  view t [-1; ws; 3; 224; 224] =
    Ok (mkTensor [n; ws; 3; 224; 224]
          [ws * frame; frame; 224 * 224; 224; 1] (storage t)).
Proof.
  intros Hc Hws Hn. unfold view. rewrite Hc, Hn. unfold infer_size.
  assert (existsb (fun d => d <? -1) [-1; ws; 3; 224; 224] = false) as ->.
  { simpl. destruct (Z.ltb_spec ws (-1)); [lia | reflexivity]. }
  assert (filter (fun d => d ≠ -1) [-1; ws; 3; 224; 224] = [ws; 3; 224; 224])
    as ->.
  { rewrite filter_cons_False by (intros H; apply H; reflexivity).
    rewrite filter_cons_True by lia. reflexivity. }
  assert (filter (fun d => d = -1) [-1; ws; 3; 224; 224] = [-1]) as ->.
  { rewrite filter_cons_True by reflexivity.
    rewrite filter_cons_False by lia. reflexivity. }
  cbn [length numel fold_right].
  replace (ws * (3 * (224 * (224 * 1)))) with (ws * frame) by (unfold frame; lia).
  replace (n * ws * frame) with (n * (ws * frame)) by lia.
  assert (0 < ws * frame) as Hpos by (unfold frame; lia).
  destruct (Z.ltb_spec 0 (ws * frame)); [| lia].
  rewrite Z.mod_mul, Z.div_mul by lia. cbn [andb Z.eqb].
  cbn [fmap list_fmap mbind result_bind].
  destruct (Z.eqb_spec ws (-1)); [lia |].
  reflexivity.
Qed.

Lemma reshape_windows_flat {A} (t : tensor A) (n ws : Z) :
  is_contiguous t = true -> 0 < ws -> numel (shape t) = n * ws * frame ->
  exists win,
    reshape_windows t ws = Ok win /\
    shape win = [ws; n; 3; 224; 224] /\
    forall w b c h x,
      tget win [w; b; c; h; x] =
        storage t ((b * ws + w) * frame + c * (224 * 224) + h * 224 + x).
Proof.
  intros Hc Hws Hn. unfold reshape_windows.
  rewrite (view_windows t n ws Hc Hws Hn). cbn [mbind result_bind].
  eexists. split; [reflexivity |]. split; [reflexivity |].
  intros w b c h x. unfold tget. cbn. f_equal. lia.
Qed.

(** ** Batches and phases *)

Lemma bind_Ok {A B} (f : A -> result B) (r : result A) (b : B) :
  r ≫= f = Ok b -> exists a, r = Ok a /\ f a = Ok b.
Proof. destruct r as [a | e]; [eauto | discriminate]. Qed.

Ltac bind_inv H :=
  let a := fresh "a" in
  let E := fresh "E" in
  apply bind_Ok in H as (a & E & H).

Section Batches.
Context {px W G O Out Loss : Type}.
Context `{!Collaborators px W G O Out Loss}.
Variable window_size : Z.

Lemma load_name_sequence_loss (l : Loss) :
  load_name [("loss", l)] "sequence_loss" = Raise (NameError "sequence_loss").
Proof. reflexivity. Qed.

Implicit Types (w : @world W G O) (data : @batch px).

Lemma batch_body_Ok phase data w rl rc w' rl' rc' :
  batch_body window_size phase data (w, rl, rc) = Ok (w', rl', rc') ->
  phase <> "Train" /\
  w' = emit EvForward (do_zero_grad w) /\
  exists v, batch_values window_size w data v /\
    py_add rl (PyFloat v.1) = Ok rl' /\ rc' = rc + v.2.
Proof.
  unfold batch_body. intros H.
  bind_inv H. cbn [do_forward] in H. bind_inv H.
  case_bool_decide as Hp.
  - cbn [mbind result_bind load_name] in H. discriminate H.
  - cbn [mbind result_bind] in H. bind_inv H. injection H as <- <- <-.
    split; [exact Hp |]. split; [reflexivity |].
    eexists (_, _). split; [exists a, a0; eauto |]. eauto.
Qed.

Lemma batches_Ok phase bs w rl rc w' rl' rc' :
  for_each (batch_body window_size phase) bs (w, rl, rc) = Ok (w', rl', rc') ->
  weights w' = weights w /\ opt_state w' = opt_state w /\
  training w' = training w /\ on_gpu w' = on_gpu w /\
  (exists evs, log w' = log w ++ evs /\ Forall batch_event evs) /\
  exists vs,
    Forall2 (batch_values window_size w) bs vs /\
    sum_losses vs.*1 rl = Ok rl' /\
    rc' = rc + foldr Z.add 0 vs.*2.
Proof.
  revert w rl rc. induction bs as [| data bs IH]; intros w rl rc H.
  - injection H as <- <- <-.
    repeat split; try reflexivity.
    + exists []. split; [by rewrite app_nil_r | constructor].
    + exists []. repeat split; [constructor | simpl; lia].
  - cbn [for_each] in H. bind_inv H. destruct a as [[w1 rl1] rc1].
    apply batch_body_Ok in E as (Hp & -> & v & Hv & Hrl & ->).
    apply IH in H as (Hw & Ho & Ht & Hg & (evs & Hlog & Hevs) & vs & Hvs & Hsum & ->).
    repeat split; try assumption.
    + exists ([EvZeroGrad; EvForward] ++ evs). split.
      * rewrite Hlog. cbn. by rewrite <- !app_assoc.
      * cbn. constructor; [by left |]. constructor; [by right | exact Hevs].
    + exists (v :: vs). split; [| split].
      * constructor; [exact Hv |].
        eapply Forall2_impl; [exact Hvs |].
        intros d u (i & m & ? & ? & ?). exists i, m. auto.
      * cbn. unfold sum_losses in *. cbn. rewrite Hrl. exact Hsum.
      * cbn. lia.
Qed.
End Batches.

Lemma getitem_Ok {V} (d : gmap string V) (k : string) (v : V) :
  getitem d k = Ok v -> d !! k = Some v.
Proof. unfold getitem. destruct (d !! k); [congruence | discriminate]. Qed.

Lemma py_truediv_int_comparable x y a :
  py_truediv (PyInt x) (PyInt y) = Ok a -> comparable a.
Proof.
  cbn [py_truediv]. intros H. bind_inv H. injection H as <-.
  simpl. eapply int_truediv_not_nan; eauto.
Qed.

Lemma printed_app evs1 evs2 : printed (evs1 ++ evs2) = printed evs1 ++ printed evs2.
Proof. apply omap_app. Qed.

Lemma printed_batch_events evs : Forall batch_event evs -> printed evs = [].
Proof.
  induction 1 as [| ev evs [-> | ->] _ IH]; [reflexivity | exact IH | exact IH].
Qed.

Section Phases.
Context {px W G O Out Loss : Type}.
Context `{!Collaborators px W G O Out Loss}.
Variable dataloaders : gmap string (@dataloader px).
Variable dataset_sizes : gmap string Z.
Variable batch_size sequence_len window_size : Z.

Implicit Types (w : @world W G O) (st : @loop_state W G O).

#[local] Abbreviation phase_body :=
  (phase_body dataloaders dataset_sizes batch_size sequence_len window_size).
#[local] Abbreviation epoch_body :=
  (epoch_body dataloaders dataset_sizes batch_size sequence_len window_size).

Lemma phase_body_Ok epoch phase st st' :
  phase_body epoch phase st = Ok st' ->
  exists loader w rl rc size scaled el ea ls accs,
    dataloaders !! phase = Some loader /\
    for_each (batch_body window_size phase) (loader epoch)
      (net_train (bool_decide (phase = "Train")) (net st), PyInt 0, 0)
      = Ok (w, rl, rc) /\
    dataset_sizes !! phase = Some size /\
    py_mul rl (PyInt batch_size) = Ok scaled /\
    py_truediv scaled (PyInt size) = Ok el /\
    py_truediv (PyInt rc) (PyInt (size * (sequence_len - window_size + 1)))
      = Ok ea /\
    losses st !! phase = Some ls /\
    accuracies st !! phase = Some accs /\
    net st' = print (LStats phase el ea) w /\
    losses st' = <[phase := ls ++ [el]]> (losses st) /\
    accuracies st' = <[phase := accs ++ [ea]]> (accuracies st) /\
    (best_model_wts st', best_acc st', patience st') =
      if bool_decide (phase = "Valid") then
        if py_gt ea (best_acc st) then (weights w, ea, 0)
        else (best_model_wts st, best_acc st, patience st + 1)
      else (best_model_wts st, best_acc st, patience st).
Proof.
  unfold phase_body. intros H.
  bind_inv H. rename a into loader. apply getitem_Ok in E.
  bind_inv H. destruct a as [[w rl] rc].
  bind_inv H. rename a into scaled.
  bind_inv H. rename a into size. apply getitem_Ok in E2.
  bind_inv H. rename a into el.
  bind_inv H. apply getitem_Ok in E4.
  assert (a = size) as -> by congruence.
  bind_inv H. rename a into ea.
  unfold append_to in H.
  bind_inv H. bind_inv E6. rename a0 into ls. apply getitem_Ok in E7.
  injection E6 as <-.
  bind_inv H. bind_inv E6. rename a0 into accs. apply getitem_Ok in E8.
  injection E6 as <-.
  exists loader, w, rl, rc, size, scaled, el, ea, ls, accs.
  repeat (split; [eassumption |]).
  case_bool_decide; [destruct (py_gt ea (best_acc st)) |];
    injection H as <-; repeat split; reflexivity.
Qed.
End Phases.

(** *** The tracker on lists *)

Lemma tracker_snoc l a : tracker (l ++ [a]) = track (tracker l) a.
Proof. unfold tracker. by rewrite fold_left_app. Qed.

Lemma py_max0_snoc l a :
  py_max0 (l ++ [a]) = if py_gt a (py_max0 l) then a else py_max0 l.
Proof. unfold py_max0. by rewrite fold_left_app. Qed.

Lemma tracker_best l : (tracker l).1 = py_max0 l.
Proof.
  induction l as [| a l IH] using rev_ind; [reflexivity |].
  rewrite tracker_snoc, py_max0_snoc. unfold track. rewrite IH.
  by destruct (py_gt a (py_max0 l)).
Qed.

Lemma tracker_take_S l i a :
  l !! i = Some a -> tracker (take (S i) l) = track (tracker (take i l)) a.
Proof. intros H. by rewrite (take_S_r _ _ _ H), tracker_snoc. Qed.

Lemma tracker_patience_nonneg l : 0 <= (tracker l).2.
Proof.
  induction l as [| a l IH] using rev_ind; [done |].
  rewrite tracker_snoc. unfold track.
  destruct (py_gt a (tracker l).1); simpl; lia.
Qed.

Lemma tracker_patience_step l a :
  (tracker (l ++ [a])).2 <= (tracker l).2 + 1.
Proof.
  rewrite tracker_snoc. unfold track.
  pose proof (tracker_patience_nonneg l).
  destruct (py_gt a (tracker l).1); simpl; lia.
Qed.

(** While the loop goes on, the patience stays below 20. *)
Lemma tracker_patience_bound l n :
  (n <= length l)%nat ->
  (forall i, (i < n)%nat -> (tracker (take i l)).2 <> 20) ->
  forall i, (i <= n)%nat -> (tracker (take i l)).2 <= 20.
Proof.
  intros Hn Hrun. induction i as [| i IH]; intros Hi.
  - rewrite take_0. simpl. lia.
  - destruct (lookup_lt_is_Some_2 l i) as [a Ha]; [lia |].
    rewrite (take_S_r _ _ _ Ha).
    pose proof (tracker_patience_step (take i l) a).
    specialize (IH ltac:(lia)). specialize (Hrun i ltac:(lia)). lia.
Qed.

(** [k] stalled epochs in a row add [k] to the patience. *)
Lemma tracker_stalled_run l a k :
  (forall i, (a <= i < a + k)%nat -> stalled l i) ->
  (tracker (take (a + k) l)).2 = (tracker (take a l)).2 + Z.of_nat k.
Proof.
  induction k as [| k IH]; intros Hst.
  - rewrite Nat.add_0_r. lia.
  - rewrite Nat.add_succ_r.
    destruct (Hst (a + k)%nat ltac:(lia)) as (x & Hx & Hgt).
    rewrite (tracker_take_S _ _ _ Hx). unfold track.
    rewrite tracker_best, Hgt. simpl.
    rewrite IH; [lia |]. intros i Hi. apply Hst. lia.
Qed.

(** *** The epochs executed *)

Section Epochs.
Context {px W G O Out Loss : Type}.
Context `{!Collaborators px W G O Out Loss}.
Variable dataloaders : gmap string (@dataloader px).
Variable dataset_sizes : gmap string Z.
Variable batch_size sequence_len window_size : Z.

Implicit Types (w : @world W G O) (st : @loop_state W G O).

#[local] Abbreviation phase_body :=
  (phase_body dataloaders dataset_sizes batch_size sequence_len window_size).
#[local] Abbreviation epoch_body :=
  (epoch_body dataloaders dataset_sizes batch_size sequence_len window_size).
#[local] Abbreviation epoch_loop :=
  (epoch_loop dataloaders dataset_sizes batch_size sequence_len window_size).
#[local] Abbreviation executed :=
  (executed dataloaders dataset_sizes batch_size sequence_len window_size).

Lemma epoch_body_Ok epoch st st' :
  epoch_body epoch st = Ok st' ->
  exists tl ta vl va el_t ea_t el_v ea_v,
    losses st !! "Train" = Some tl /\
    accuracies st !! "Train" = Some ta /\
    losses st !! "Valid" = Some vl /\
    accuracies st !! "Valid" = Some va /\
    losses st' =
      <["Valid" := vl ++ [el_v]]> (<["Train" := tl ++ [el_t]]> (losses st)) /\
    accuracies st' =
      <["Valid" := va ++ [ea_v]]>
        (<["Train" := ta ++ [ea_t]]> (accuracies st)) /\
    comparable ea_v /\
    printed (log (net st')) =
      printed (log (net st)) ++
        [LBlank; LEpoch (Z.of_nat epoch + 1); LRule;
         LStats "Train" el_t ea_t; LStats "Valid" el_v ea_v] /\
    (best_model_wts st', best_acc st', patience st') =
      if py_gt ea_v (best_acc st) then (weights (net st'), ea_v, 0)
      else (best_model_wts st, best_acc st, patience st + 1).
Proof.
  unfold epoch_body. cbn [for_each]. intros H.
  bind_inv H. rename a into st1. bind_inv H. rename a into st2.
  injection H as <-.
  apply phase_body_Ok in E
    as (ld1 & w1 & rl1 & rc1 & sz1 & sc1 & el_t & ea_t & tl & ta
        & _ & Hb1 & _ & _ & _ & _ & Htl & Hta & Hn1 & Hl1 & Ha1 & Ht1).
  apply phase_body_Ok in E0
    as (ld2 & w2 & rl2 & rc2 & sz2 & sc2 & el_v & ea_v & vl & va
        & _ & Hb2 & _ & _ & _ & Hea & Hvl & Hva & Hn2 & Hl2 & Ha2 & Ht2).
  cbn [losses accuracies net best_acc best_model_wts patience] in *.
  rewrite bool_decide_false in Ht1 by done.
  rewrite bool_decide_true in Ht2 by done.
  injection Ht1 as Hw1 Hb1' Hp1.
  rewrite Hl1 in Hvl, Hl2. rewrite Ha1 in Hva, Ha2.
  rewrite lookup_insert_ne in Hvl, Hva by done.
  exists tl, ta, vl, va, el_t, ea_t, el_v, ea_v.
  apply batches_Ok in Hb1 as (_ & _ & _ & _ & (evs1 & Hlog1 & Hevs1) & _).
  apply batches_Ok in Hb2 as (Hw2 & _ & _ & _ & (evs2 & Hlog2 & Hevs2) & _).
  repeat (split; [assumption |]).
  split; [eapply py_truediv_int_comparable; eauto |].
  split.
  - rewrite Hn2. cbn [print emit log]. rewrite Hlog2. cbn [net_train emit log].
    rewrite Hn1. cbn [print emit log]. rewrite Hlog1.
    cbn [print net_train emit log].
    rewrite !printed_app, (printed_batch_events _ Hevs1),
      (printed_batch_events _ Hevs2).
    repeat match goal with
      | |- context [printed [?ev]] =>
          let r := eval cbn in (printed [ev]) in
          change (printed [ev]) with r
      end.
    rewrite !app_nil_r, <- !app_assoc. reflexivity.
  - rewrite Ht2, Hb1', Hw1, Hp1, Hn2. reflexivity.
Qed.

Lemma epoch_loop_cons epoch l st :
  epoch_loop (epoch :: l) st =
    st' ← epoch_body epoch st;
    if patience st' =? 20 then Ok st' else epoch_loop l st'.
Proof. reflexivity. Qed.

Lemma epoch_loop_snoc l epoch st0 st st' :
  epoch_loop l st0 = Ok st -> l = [] \/ patience st <> 20 ->
  epoch_body epoch st = Ok st' ->
  epoch_loop (l ++ [epoch]) st0 = Ok st'.
Proof.
  revert st0. induction l as [| x l IH]; intros st0 Hl Hp Hb.
  - injection Hl as ->. simpl app. rewrite epoch_loop_cons, Hb.
    cbn. by destruct (_ =? _).
  - rewrite <- app_comm_cons, epoch_loop_cons. rewrite epoch_loop_cons in Hl.
    bind_inv Hl. rewrite E. cbn [mbind result_bind].
    destruct (Z.eqb_spec (patience a) 20) as [He | Hne].
    + injection Hl as ->. destruct Hp; [discriminate | contradiction].
    + apply IH; [exact Hl | | exact Hb]. destruct Hp; [discriminate | by right].
Qed.

Lemma executed_epoch_loop st0 n st :
  executed st0 n st -> epoch_loop (seq 0 n) st0 = Ok st.
Proof.
  induction 1 as [| n st st' _ IH Hp Hb]; [reflexivity |].
  rewrite seq_S. eapply epoch_loop_snoc; [exact IH | | exact Hb].
  destruct Hp as [-> | Hp]; [by left | by right].
Qed.

Lemma epoch_loop_from st0 m a st1 st :
  executed st0 a st1 -> a = 0%nat \/ patience st1 <> 20 ->
  epoch_loop (seq a m) st1 = Ok st ->
  exists n, (a <= n <= a + m)%nat /\ executed st0 n st /\
    (n = (a + m)%nat \/ patience st = 20).
Proof.
  revert a st1. induction m as [| m IH]; intros a st1 Hex Hp Hl.
  - injection Hl as ->. exists a. split; [lia |]. split; [done | left; lia].
  - cbn [seq] in Hl. rewrite epoch_loop_cons in Hl.
    bind_inv Hl. rename a0 into st2.
    assert (executed st0 (S a) st2) as Hex2 by (econstructor; eauto).
    destruct (Z.eqb_spec (patience st2) 20) as [He | Hne].
    + injection Hl as ->. exists (S a). split; [lia |]. split; [done | by right].
    + destruct (IH (S a) st2 Hex2 (or_intror Hne) Hl) as (n & Hn & Hexn & Hor).
      exists n. split; [lia |]. split; [done |].
      destruct Hor; [left; lia | by right].
Qed.

Lemma epoch_loop_executed st0 m st :
  epoch_loop (seq 0 m) st0 = Ok st ->
  exists n, (n <= m)%nat /\ executed st0 n st /\
    (n = m \/ patience st = 20).
Proof.
  intros H.
  destruct (epoch_loop_from st0 m 0 st0 st ltac:(constructor)
              (or_introl eq_refl) H) as (n & Hn & Hex & Hor).
  exists n. split; [lia |]. split; [done |]. exact Hor.
Qed.
End Epochs.

Lemma flat_map_ext_seq {A} (f g : nat -> list A) n :
  (forall i, (i < n)%nat -> f i = g i) ->
  flat_map f (seq 0 n) = flat_map g (seq 0 n).
Proof.
  intros H. induction n as [| n IH]; [reflexivity |].
  rewrite seq_S, !flat_map_app. cbn. rewrite IH, H by (intros; auto with lia).
  reflexivity.
Qed.

Lemma epoch_report_snoc tl ta vl va a b c d n :
  length tl = n -> length ta = n -> length vl = n -> length va = n ->
  flat_map (epoch_report (tl ++ [a]) (ta ++ [b]) (vl ++ [c]) (va ++ [d]))
    (seq 0 (S n)) =
  flat_map (epoch_report tl ta vl va) (seq 0 n) ++
    [LBlank; LEpoch (Z.of_nat n + 1); LRule; LStats "Train" a b;
     LStats "Valid" c d].
Proof.
  intros H1 H2 H3 H4. rewrite seq_S, flat_map_app. cbn [flat_map seq Nat.add].
  rewrite app_nil_r. f_equal.
  - apply flat_map_ext_seq. intros i Hi. unfold epoch_report.
    rewrite !lookup_total_app_l by lia. reflexivity.
  - unfold epoch_report.
    rewrite !list_lookup_total_middle by done. reflexivity.
Qed.

Section Invariant.
Context {px W G O Out Loss : Type}.
Context `{!Collaborators px W G O Out Loss}.
Variable dataloaders : gmap string (@dataloader px).
Variable dataset_sizes : gmap string Z.
Variable batch_size sequence_len window_size : Z.
Variable gpu : bool.
Variable w0 : @world W G O.

Implicit Types (w : @world W G O) (st : @loop_state W G O).

#[local] Abbreviation executed :=
  (executed dataloaders dataset_sizes batch_size sequence_len window_size
     (initial_state gpu w0)).

#[local] Abbreviation run_inv :=
  (run_inv dataloaders dataset_sizes batch_size sequence_len window_size gpu
     w0).

Lemma printed_initial : printed (log (net (initial_state gpu w0))) = printed (log w0).
Proof.
  unfold initial_state. destruct gpu; [| reflexivity].
  cbn [net cuda emit log]. rewrite printed_app. cbn. by rewrite app_nil_r.
Qed.

Lemma initial_inv : run_inv 0 (initial_state gpu w0) [] [] [] [].
Proof.
  split; try done.
  - rewrite printed_initial. cbn. by rewrite app_nil_r.
  - intros i Hi. lia.
  - split; [intros x Hx; by apply elem_of_nil in Hx |].
    left. split; [reflexivity |]. unfold initial_state. by destruct gpu.
Qed.

Lemma executed_inv n st :
  executed n st -> exists tl ta vl va, run_inv n st tl ta vl va.
Proof.
  induction 1 as [| n st st' Hex (tl & ta & vl & va & IH) Hp Hb].
  { exists [], [], [], []. apply initial_inv. }
  assert (executed (S n) st') as Hex' by (econstructor; eauto).
  apply executed_epoch_loop in Hex'.
  apply epoch_body_Ok in Hb
    as (tl' & ta' & vl' & va' & el_t & ea_t & el_v & ea_v
        & Htl & Hta & Hvl & Hva & Hl & Ha & Hcmp & Hpr & Htr).
  destruct IH as [Itl Ita Ivl Iva (L1 & L2 & L3 & L4) Ipr Icmp Ibc Itr Irun Irec].
  assert (tl' = tl) as -> by congruence. assert (ta' = ta) as -> by congruence.
  assert (vl' = vl) as -> by congruence. assert (va' = va) as -> by congruence.
  assert (best_acc st = (tracker va).1) as Ib by (by rewrite <- Itr).
  assert (patience st = (tracker va).2) as Ip by (by rewrite <- Itr).
  exists (tl ++ [el_t]), (ta ++ [ea_t]), (vl ++ [el_v]), (va ++ [ea_v]).
  split.
  - rewrite Hl, lookup_insert_ne, lookup_insert_eq; done.
  - rewrite Ha, lookup_insert_ne, lookup_insert_eq; done.
  - rewrite Hl, lookup_insert_eq; done.
  - rewrite Ha, lookup_insert_eq; done.
  - rewrite !length_app. cbn. lia.
  - rewrite Hpr, Ipr, <- app_assoc. f_equal. symmetry.
    by apply epoch_report_snoc.
  - apply Forall_app. split; [done | by constructor].
  - destruct (py_gt ea_v (best_acc st)); injection Htr as _ -> _; done.
  - rewrite tracker_snoc. unfold track. rewrite <- Ib, <- Ip. cbn [fst snd].
    destruct (py_gt ea_v (best_acc st)); injection Htr as _ -> ->; done.
  - intros i Hi. destruct (decide (i = n)) as [-> | Hne].
    + rewrite take_app_length' by done. rewrite <- Ip.
      destruct Hp as [-> | Hp]; [| exact Hp].
      destruct va; [| discriminate]. cbn in Ip. lia.
    + rewrite take_app_le by lia. apply Irun. lia.
  - destruct Irec as (Ibound & Isnap).
    assert (forall x, x ∈ va -> comparable x) as Hcva
      by (by apply Forall_forall).
    assert (best_acc st = PyInt 0 \/ py_gt (best_acc st) (PyInt 0) = true)
      as Hpos.
    { destruct Isnap as [[-> _] | (? & ? & _ & ? & _)]; auto. }
    destruct (py_gt ea_v (best_acc st)) eqn:Hgt;
      injection Htr as -> -> _.
    + split.
      * intros x [Hx | ->%list_elem_of_singleton]%elem_of_app.
        -- eapply py_gt_le_trans; eauto.
        -- by apply py_gt_irrefl.
      * right. exists n, st'. split; [by apply list_lookup_middle |].
        split.
        { destruct Hpos as [<- | Hpos]; [done |].
          eapply py_gt_trans; eauto. done. }
        split; [| done].
        intros j x Hj Hx. rewrite lookup_app_l in Hx by lia.
        eapply py_gt_le_lt; eauto using list_elem_of_lookup_2.
    + split.
      * intros x [Hx | ->%list_elem_of_singleton]%elem_of_app; auto.
      * destruct Isnap as [Hz | (k & st_k & Hk & Hk0 & Hfirst & Hexk & Hw)];
          [by left | right].
        exists k, st_k. split.
        { rewrite lookup_app_l; [done |]. by eapply lookup_lt_Some. }
        split; [done |]. split; [| done].
        intros j x Hj Hx. apply (Hfirst j x Hj).
        rewrite lookup_app_l in Hx; [done |].
        apply lookup_lt_Some in Hk. lia.
Qed.
End Invariant.

(** *** The tracker from any state *)

Section TrackingFacts.

Context {px W G O Out Loss : Type}.
Context `{!Collaborators px W G O Out Loss}.
Variable dataloaders : gmap string (@dataloader px).
Variable dataset_sizes : gmap string Z.
Variable batch_size sequence_len window_size : Z.

Implicit Types (w : @world W G O) (st : @loop_state W G O).

#[local] Abbreviation epoch_loop :=
  (epoch_loop dataloaders dataset_sizes batch_size sequence_len window_size).
#[local] Abbreviation executed :=
  (executed dataloaders dataset_sizes batch_size sequence_len window_size).
#[local] Abbreviation tracked_from :=
  (tracked_from dataloaders dataset_sizes batch_size sequence_len window_size).

(** The tracker after [n] epochs from any state. *)
Lemma executed_tracked st0 old n st :
  comparable (best_acc st0) ->
  accuracies st0 !! "Valid" = Some old ->
  executed st0 n st ->
  exists new,
    accuracies st !! "Valid" = Some (old ++ new) /\
    length new = n /\
    Forall comparable new /\
    comparable (best_acc st) /\
    tracked_from st0 new (best_acc st) (best_model_wts st).
Proof.
  intros Hc0 Hold. induction 1 as [| n st st' Hex IH Hp Hb].
  { exists []. rewrite app_nil_r. repeat (split; [done |]).
    split; [intros x Hx; by apply elem_of_nil in Hx |].
    left. repeat split. intros x Hx. by apply elem_of_nil in Hx. }
  destruct IH as (new & Hva & Hlen & Hcn & Hcb & Hbound & Hrec).
  assert (executed st0 (S n) st') as Hex' by (econstructor; eauto).
  apply executed_epoch_loop in Hex'.
  apply epoch_body_Ok in Hb
    as (tl & ta & vl & va & el_t & ea_t & el_v & ea_v
        & _ & _ & _ & Hva' & _ & Ha & Hcmp & _ & Htr).
  assert (va = old ++ new) as -> by congruence.
  exists (new ++ [ea_v]).
  split; [rewrite Ha, lookup_insert_eq, app_assoc; done |].
  split; [rewrite length_app; cbn; lia |].
  split; [apply Forall_app; split; [done | by constructor] |].
  assert (forall x, x ∈ new -> comparable x) as Hcx by (by apply Forall_forall).
  destruct (py_gt ea_v (best_acc st)) eqn:Hgt; injection Htr as -> -> _.
  - split; [done |]. split.
    + intros x [Hx | ->%list_elem_of_singleton]%elem_of_app.
      * eapply py_gt_le_trans; eauto.
      * by apply py_gt_irrefl.
    + right. exists n, st'.
      split; [apply list_lookup_middle; done |]. split.
      { destruct Hrec as [(Hb0 & _) | (k & st_k & _ & Hk0 & _)].
        - by rewrite <- Hb0.
        - eapply py_gt_trans; eauto; done. }
      split; [| done].
      intros j x Hj Hx. rewrite lookup_app_l in Hx by lia.
      eapply py_gt_le_lt; eauto using list_elem_of_lookup_2.
  - split; [done |]. split.
    + intros x [Hx | ->%list_elem_of_singleton]%elem_of_app; auto.
    + destruct Hrec as [(Hb0 & Hw0 & Hle) | (k & st_k & Hk & Hk0 & Hfirst & Hexk & Hw)].
      * left. repeat (split; [done |]).
        intros x [Hx | ->%list_elem_of_singleton]%elem_of_app; [auto |].
        by rewrite <- Hb0.
      * right. exists k, st_k.
        split; [rewrite lookup_app_l; [done | by eapply lookup_lt_Some] |].
        split; [done |]. split; [| done].
        intros j x Hj Hx. apply (Hfirst j x Hj).
        rewrite lookup_app_l in Hx; [done |].
        apply lookup_lt_Some in Hk. lia.
Qed.

(** The same after the loop, however it ended. *)
Lemma epoch_loop_tracked st0 old m st :
  comparable (best_acc st0) ->
  accuracies st0 !! "Valid" = Some old ->
  epoch_loop (seq 0 m) st0 = Ok st ->
  exists new,
    accuracies st !! "Valid" = Some (old ++ new) /\
    tracked_from st0 new (best_acc st) (best_model_wts st).
Proof.
  intros Hc Hold H. apply epoch_loop_executed in H as (n & _ & Hex & _).
  destruct (executed_tracked _ _ _ _ Hc Hold Hex)
    as (new & Hva & _ & _ & _ & Htr).
  eauto.
Qed.

(** What is returned after the loop. *)
Lemma finish_loads_snapshot st :
  weights (finish st).1.1.1 = best_model_wts st /\
  (finish st).1.1.2 = best_acc st /\
  (finish st).2 = accuracies st.
Proof. done. Qed.

End TrackingFacts.

(** ** Arithmetic on integer-valued floats *)

Lemma elem_of_interval a b i : a <= i <= b -> In i (interval a b).
Proof.
  intros H. unfold interval. apply list_elem_of_In, list_elem_of_fmap.
  exists (Z.to_nat (i - a)). split; [lia |].
  apply list_elem_of_In, in_seq. lia.
Qed.

Lemma sums_exact_spec n s l :
  sums_exact n = true -> 0 <= s -> 0 <= l -> s + l <= n ->
  SFadd prec emax (float_of s) (float_of l) = float_of (s + l).
Proof.
  unfold sums_exact. rewrite forallb_forall. intros H Hs Hl Hle.
  assert (0 <= s <= n) as Hsn by lia.
  specialize (H s (elem_of_interval _ _ _ Hsn)).
  rewrite forallb_forall in H.
  assert (0 <= l <= n - s) as Hln by lia.
  specialize (H l (elem_of_interval _ _ _ Hln)).
  by apply bool_decide_eq_true in H.
Qed.

Lemma products_exact_spec n m p b :
  products_exact n m = true -> 0 <= p <= n -> 1 <= b <= m ->
  SFmul prec emax (float_of p) (float_of b) = float_of (p * b).
Proof.
  unfold products_exact. rewrite forallb_forall. intros H Hp Hb.
  specialize (H p (elem_of_interval _ _ _ Hp)).
  rewrite forallb_forall in H.
  specialize (H b (elem_of_interval _ _ _ Hb)).
  by apply bool_decide_eq_true in H.
Qed.

Lemma quotients_exact_spec n m q d :
  quotients_exact n m = true -> 0 <= q <= n -> 1 <= d <= m -> (d | q) ->
  SFdiv prec emax (float_of q) (float_of d) = float_of (q / d).
Proof.
  unfold quotients_exact. rewrite forallb_forall. intros H Hq Hd [k ->].
  specialize (H d (elem_of_interval _ _ _ Hd)).
  rewrite forallb_forall in H.
  assert (0 <= k <= n / d) as Hk.
  { split; [nia |]. apply Z.div_le_lower_bound; lia. }
  specialize (H k (elem_of_interval _ _ _ Hk)).
  apply bool_decide_eq_true in H. by rewrite Z.div_mul by lia.
Qed.

Lemma values_exact_spec n z :
  values_exact n = true -> 0 <= z <= n ->
  float_of_int z = Ok (float_of z) /\
  (z <> 0 -> is_zero (float_of z) = false) /\
  exists q, float_value (float_of z) = Some q /\ (q == inject_Z z)%Q.
Proof.
  unfold values_exact. rewrite forallb_forall. intros H Hz.
  specialize (H z (elem_of_interval _ _ _ Hz)).
  apply andb_true_iff in H as [H Hv]. apply andb_true_iff in H as [Hi Hnz].
  split; [| split].
  - unfold float_of_int. fold (float_of z).
    by destruct (is_infinity (float_of z)).
  - intros Hne. apply orb_true_iff in Hnz as [Hnz | Hnz].
    + by apply bool_decide_eq_true in Hnz.
    + by apply negb_true_iff.
  - destruct (float_value (float_of z)) as [q |]; [| discriminate].
    exists q. split; [reflexivity | by apply Qeq_bool_iff].
Qed.

Lemma sums_exact_256 : sums_exact 256 = true.
Proof. vm_compute. reflexivity. Qed.

Lemma products_exact_256_8 : products_exact 256 8 = true.
Proof. vm_compute. reflexivity. Qed.

Lemma quotients_exact_2048_16 : quotients_exact 2048 16 = true.
Proof. vm_compute. reflexivity. Qed.

Lemma values_exact_2048 : values_exact 2048 = true.
Proof. vm_compute. reflexivity. Qed.

(** The running loss of integer-valued losses is their sum. *)
Lemma sum_losses_exact ls s :
  0 <= s -> Forall (fun l => 0 <= l) ls -> s + foldr Z.add 0 ls <= 256 ->
  sum_losses (float_of <$> ls) (PyFloat (float_of s))
    = Ok (PyFloat (float_of (s + foldr Z.add 0 ls))).
Proof.
  revert s. induction ls as [| l ls IH]; intros s Hs Hls Hle.
  - cbn. by rewrite Z.add_0_r.
  - apply Forall_cons in Hls as [Hl Hls]. cbn [foldr] in Hle.
    assert (0 <= foldr Z.add 0 ls) as Hnn.
    { clear -Hls. induction Hls; cbn; lia. }
    unfold sum_losses in *. cbn [fmap list_fmap for_each].
    cbn [py_add to_float mbind result_bind].
    rewrite (sums_exact_spec 256) by (apply sums_exact_256 || lia).
    rewrite IH by (done || lia). cbn [foldr]. do 3 f_equal. lia.
Qed.

(** On integer-valued losses the loss of an epoch is exactly their sum
    times [batch_size] over the size. *)
Lemma loss_arithmetic_exact (ls : list Z) (bs size : Z) :
  Forall (fun l => 0 <= l) ls -> foldr Z.add 0 ls <= 256 ->
  1 <= bs <= 8 -> 1 <= size <= 16 -> (size | foldr Z.add 0 ls * bs) ->
  exists running scaled loss q,
    sum_losses (float_of <$> ls) (PyInt 0) = Ok running /\
    py_mul running (PyInt bs) = Ok scaled /\
    py_truediv scaled (PyInt size) = Ok (PyFloat loss) /\
    loss = float_of (foldr Z.add 0 ls * bs / size) /\
    float_value loss = Some q /\
    Qeq q (inject_Z (foldr Z.add 0 ls * bs / size)).
Proof.
  intros Hls Hle Hbs Hsz Hdiv.
  assert (0 <= foldr Z.add 0 ls) as Hnn.
  { clear -Hls. induction Hls; cbn; lia. }
  assert (0 <= foldr Z.add 0 ls * bs / size <= 2048) as Hq.
  { split; [apply Z.div_pos; nia |].
    apply Z.div_le_upper_bound; nia. }
  destruct (values_exact_spec 2048 _ values_exact_2048 Hq)
    as (_ & _ & q & Hv & Hqe).
  destruct (values_exact_spec 2048 bs values_exact_2048 ltac:(lia))
    as (Hfb & _ & _).
  destruct (values_exact_spec 2048 size values_exact_2048 ltac:(lia))
    as (Hfs & Hzs & _).
  destruct ls as [| l ls].
  - exists (PyInt 0), (PyInt 0). eexists _, q.
    split; [reflexivity |]. split; [reflexivity |].
    cbn [foldr] in *. cbn [py_truediv]. unfold int_truediv.
    destruct (Z.eqb_spec size 0); [lia |]. cbn [Z.eqb mbind result_bind].
    destruct (Z.ltb_spec size 0); [lia |].
    split; [reflexivity |]. split; [reflexivity |]. done.
  - apply Forall_cons in Hls as [Hl Hls]. cbn [foldr] in *.
    assert (0 <= foldr Z.add 0 ls) as Hnn'.
    { clear -Hls. induction Hls; cbn; lia. }
    exists (PyFloat (float_of (l + foldr Z.add 0 ls))),
           (PyFloat (float_of ((l + foldr Z.add 0 ls) * bs))).
    eexists _, q. split.
    { unfold sum_losses. cbn [fmap list_fmap for_each].
      cbn [py_add to_float mbind result_bind].
      change (float_of_int 0) with (Ok (float_of 0)).
      cbn [mbind result_bind].
      rewrite (sums_exact_spec 256) by (apply sums_exact_256 || lia).
      apply sum_losses_exact; done || lia. }
    split.
    { cbn [py_mul to_float mbind result_bind]. rewrite Hfb.
      cbn [mbind result_bind].
      rewrite (products_exact_spec 256 8)
        by (apply products_exact_256_8 || lia). reflexivity. }
    split.
    { cbn [py_truediv to_float mbind result_bind]. rewrite Hfs.
      cbn [mbind result_bind]. unfold float_truediv.
      rewrite Hzs by lia. cbn [mbind result_bind].
      rewrite (quotients_exact_spec 2048 16)
        by (apply quotients_exact_2048_16 || done || nia).
      reflexivity. }
    split; [reflexivity |]. done.
Qed.

Lemma stalledb_range l a k :
  forallb (stalledb l) (seq a k) = true ->
  forall i, (a <= i < a + k)%nat -> stalled l i.
Proof.
  rewrite forallb_forall. intros H i Hi.
  specialize (H i ltac:(apply in_seq; lia)). unfold stalledb in H.
  destruct (l !! i) as [x |] eqn:E; [| discriminate].
  exists x. split; [exact E |]. by apply negb_true_iff.
Qed.

(** ** The training loop *)

Section Properties.

Context {px W G O Out Loss : Type}.
Context `{!Collaborators px W G O Out Loss}.
Variable dataloaders : gmap string (@dataloader px).
Variable dataset_sizes : gmap string Z.
Variable batch_size sequence_len window_size : Z.
Variable gpu : bool.

Implicit Types (w : @world W G O) (st : @loop_state W G O).
Implicit Types (data : @batch px).

Lemma train_network_unfold (w0 : @world W G O) max_epochs :
  train_network dataloaders dataset_sizes batch_size sequence_len window_size
    gpu w0 max_epochs =
  st ← epoch_loop dataloaders dataset_sizes batch_size sequence_len
         window_size (range max_epochs) (initial_state gpu w0);
  Ok (load_state_dict (best_model_wts st)
        (print LElapsed (print LBlank (net st))),
      best_acc st, losses st, accuracies st).
Proof. reflexivity. Qed.

#[local] Abbreviation phase_body :=
  (phase_body dataloaders dataset_sizes batch_size sequence_len window_size).
#[local] Abbreviation epoch_loop :=
  (epoch_loop dataloaders dataset_sizes batch_size sequence_len window_size).
#[local] Abbreviation train_network :=
  (train_network dataloaders dataset_sizes batch_size sequence_len
     window_size gpu).
#[local] Abbreviation run_inv :=
  (run_inv dataloaders dataset_sizes batch_size sequence_len window_size gpu).
#[local] Abbreviation best_record :=
  (best_record dataloaders dataset_sizes batch_size sequence_len window_size
     gpu).
#[local] Abbreviation tracked_from :=
  (tracked_from dataloaders dataset_sizes batch_size sequence_len
     window_size).

Lemma epoch_loop_inv w0 m st :
  epoch_loop (seq 0 m) (initial_state gpu w0) = Ok st ->
  exists n tl ta vl va,
    (n <= m)%nat /\ (n = m \/ patience st = 20) /\
    run_inv w0 n st tl ta vl va.
Proof.
  intros H. apply epoch_loop_executed in H as (n & Hn & Hex & Hor).
  apply (executed_inv _ _ _ _ _ gpu) in Hex as (tl & ta & vl & va & Hinv).
  exists n, tl, ta, vl, va. auto.
Qed.

Lemma train_network_Ok w0 max_epochs w b ls accs :
  train_network w0 max_epochs = Ok (w, b, ls, accs) ->
  exists n st tl ta vl va,
    (n <= Z.to_nat max_epochs)%nat /\
    (n = Z.to_nat max_epochs \/ patience st = 20) /\
    run_inv w0 n st tl ta vl va /\
    epoch_loop (range max_epochs) (initial_state gpu w0) = Ok st /\
    w = load_state_dict (best_model_wts st)
          (print LElapsed (print LBlank (net st))) /\
    b = best_acc st /\ ls = losses st /\ accs = accuracies st.
Proof.
  rewrite train_network_unfold. intros H.
  bind_inv H. rename a into st. injection H as <- <- <- <-.
  pose proof E as E'.
  apply epoch_loop_inv in E as (n & tl & ta & vl & va & Hn & Hor & Hinv).
  exists n, st, tl, ta, vl, va. auto 10.
Qed.

(** What a batch of the Train phase ends with. *)
Lemma train_batch_error data (s : @stats W G O) :
  exists e,
    batch_body window_size "Train" data s = Raise e /\
    (e = NameError "sequence_loss" \/ exists msg, e = RuntimeError msg).
Proof.
  destruct s as [[w rl] rc]. unfold batch_body.
  destruct (reshape_windows (X data) window_size) as [inputs | e] eqn:E.
  - cbn [mbind result_bind do_forward].
    destruct (tensor_eq _ _) as [mask | e] eqn:E2.
    + cbn [mbind result_bind load_name]. rewrite bool_decide_true by done.
      eexists. split; [reflexivity | by left].
    + exists e. split; [reflexivity |]. right.
      unfold tensor_eq in E2. case_bool_decide; [discriminate |].
      destruct (torch_max _) as [| ? [| ? ?]], (y data) as [| ? [| ? ?]];
        try discriminate; injection E2 as <-; eauto.
  - exists e. split; [reflexivity |]. right.
    unfold reshape_windows in E.
    destruct (view (X data) _) as [v | e'] eqn:Ev.
    + cbn [mbind result_bind] in E. unfold transpose in E.
      destruct (_ && _); [discriminate | injection E as <-; eauto].
    + cbn [mbind result_bind] in E. injection E as <-.
      unfold view in Ev. destruct (is_contiguous _);
        [| injection Ev as <-; eauto].
      destruct (infer_size _ _) as [sh | e''] eqn:Es; [discriminate |].
      cbn [mbind result_bind] in Ev. injection Ev as <-.
      unfold infer_size in Es.
      repeat match type of Es with
        | (if ?c then _ else _) = _ => destruct c
        | match ?c with _ => _ end = _ => destruct c
        end; try discriminate; injection Es as <-; eauto.
Qed.

(** C1 (defect of the code). A batch of the Train phase never completes:
    where the claim has the backward pass run from the loss of the
    batch, the code reads the name [sequence_loss], which nothing
    binds, and raises [NameError] before any backward pass or optimizer
    step (unless reshaping or comparing the predictions failed before
    with a [RuntimeError]). *)
Theorem train_batch_raises data (s : @stats W G O) :
  exists e,
    batch_body window_size "Train" data s = Raise e /\
    (e = NameError "sequence_loss" \/ exists msg, e = RuntimeError msg).
Proof. apply train_batch_error. Qed.

(** A phase that completes under the name "Train" had no batch. *)
Lemma train_pass_empty epoch st st' :
  phase_body epoch "Train" st = Ok st' ->
  exists loader, dataloaders !! "Train" = Some loader /\ loader epoch = [].
Proof.
  intros H. apply phase_body_Ok in H
    as (loader & w & rl & rc & _ & _ & _ & _ & _ & _ & Hl & Hb & _).
  exists loader. split; [exact Hl |].
  destruct (loader epoch) as [| data bs]; [reflexivity |].
  cbn [for_each] in Hb.
  destruct (train_batch_error data
              (net_train (bool_decide ("Train" = "Train")) (net st), PyInt 0, 0))
    as (e & He & _).
  rewrite He in Hb. discriminate Hb.
Qed.

(** C8. A batch of the Valid phase leaves the parameters (and the state
    of the optimizer) as they were: all it does to the collaborators is
    clear the gradients and run the forward pass, with no backward pass
    and no optimizer step. *)
Theorem valid_batch_keeps_parameters data w rl rc w' rl' rc' :
  batch_body window_size "Valid" data (w, rl, rc) = Ok (w', rl', rc') ->
  weights w' = weights w /\
  opt_state w' = opt_state w /\
  log w' = log w ++ [EvZeroGrad; EvForward].
Proof.
  intros H. apply batch_body_Ok in H as (_ & -> & _).
  cbn. by rewrite <- app_assoc.
Qed.

(** C3. The accuracy a phase records is [running_correct], the sum of
    the correct predictions of its batches, divided by
    [dataset_sizes[phase] * (sequence_len - window_size + 1)]; and 230
    correct predictions for 10 videos of length 50 with windows of 5
    give the float 0.5 exactly. *)
Theorem epoch_accuracy epoch phase st st' :
  phase_body epoch phase st = Ok st' ->
  (exists loader vs size acc old,
     dataloaders !! phase = Some loader /\
     Forall2
       (batch_values window_size
          (net_train (bool_decide (phase = "Train")) (net st)))
       (loader epoch) vs /\
     dataset_sizes !! phase = Some size /\
     py_truediv (PyInt (foldr Z.add 0 vs.*2))
       (PyInt (size * (sequence_len - window_size + 1))) = Ok acc /\
     accuracies st !! phase = Some old /\
     accuracies st' !! phase = Some (old ++ [acc])) /\
  (exists half q,
     py_truediv (PyInt 230) (PyInt (10 * (50 - 5 + 1))) = Ok (PyFloat half) /\
     float_value half = Some q /\ (q == 1 # 2)%Q).
Proof.
  intros H. split.
  - apply phase_body_Ok in H
      as (loader & w & rl & rc & size & scaled & el & ea & ls & old
          & Hld & Hb & Hsz & _ & _ & Hea & _ & Hold & _ & _ & Ha & _).
    apply batches_Ok in Hb as (_ & _ & _ & _ & _ & vs & Hvs & _ & ->).
    exists loader, vs, size, ea, old.
    repeat (split; [assumption |]). rewrite Ha. apply lookup_insert_eq.
  - eexists _, _. split; [vm_compute; reflexivity |].
    split; [vm_compute; reflexivity | reflexivity].
Qed.

(** C6. The loss a phase records is [running_loss], the sum of the loss
    values of its batches, multiplied by [batch_size] and divided by
    [dataset_sizes[phase]]; when the loss values are the integers [ls],
    in the range where the floats are exact, it is the float of the
    integer [sum ls * batch_size / dataset_sizes[phase]]. *)
Theorem epoch_loss epoch phase st st' :
  phase_body epoch phase st = Ok st' ->
  exists loader vs running_loss scaled size loss old,
    dataloaders !! phase = Some loader /\
    Forall2
      (batch_values window_size
         (net_train (bool_decide (phase = "Train")) (net st)))
      (loader epoch) vs /\
    sum_losses vs.*1 (PyInt 0) = Ok running_loss /\
    dataset_sizes !! phase = Some size /\
    py_mul running_loss (PyInt batch_size) = Ok scaled /\
    py_truediv scaled (PyInt size) = Ok loss /\
    losses st !! phase = Some old /\
    losses st' !! phase = Some (old ++ [loss]) /\
    (forall ls : list Z,
       vs.*1 = float_of <$> ls ->
       Forall (fun l => 0 <= l) ls -> foldr Z.add 0 ls <= 256 ->
       1 <= batch_size <= 8 -> 1 <= size <= 16 ->
       (size | foldr Z.add 0 ls * batch_size) ->
       loss = PyFloat (float_of (foldr Z.add 0 ls * batch_size / size)) /\
       exists q,
         float_value (float_of (foldr Z.add 0 ls * batch_size / size))
           = Some q /\
         Qeq q (inject_Z (foldr Z.add 0 ls * batch_size / size))).
Proof.
  intros H. apply phase_body_Ok in H
    as (loader & w & rl & rc & size & scaled & el & ea & old & accs
        & Hld & Hb & Hsz & Hmul & Hel & _ & Hold & _ & _ & Hl & _ & _).
  apply batches_Ok in Hb as (_ & _ & _ & _ & _ & vs & Hvs & Hsum & _).
  exists loader, vs, rl, scaled, size, el, old.
  repeat (split; [assumption |]).
  split; [rewrite Hl; apply lookup_insert_eq |].
  intros ls Hls Hnn Hle Hbs Hsize Hdiv.
  destruct (loss_arithmetic_exact ls batch_size size Hnn Hle Hbs Hsize Hdiv)
    as (running & scaled' & loss & q & Hr & Hs & Hq & -> & Hv & Hqe).
  rewrite Hls in Hsum. split; [congruence | by exists q].
Qed.


(** C4. When the validation accuracy has failed to improve strictly on
    the best one so far for the 20 epochs up to epoch [j], epoch [j] is
    the last one executed, and both of its phases were completed and
    recorded: the four lists have [j + 1] entries. *)
Theorem early_stopping w0 max_epochs w b ls accs tl ta vl va j :
  train_network w0 max_epochs = Ok (w, b, ls, accs) ->
  ls !! "Train" = Some tl -> ls !! "Valid" = Some vl ->
  accs !! "Train" = Some ta -> accs !! "Valid" = Some va ->
  (19 <= j < length va)%nat ->
  (forall i, (j - 19 <= i <= j)%nat -> stalled va i) ->
  length va = S j /\ length ta = S j /\ length vl = S j /\ length tl = S j.
Proof.
  intros H Htl Hvl Hta Hva Hj Hst. apply train_network_Ok in H
    as (n & st & tl' & ta' & vl' & va' & _ & _ & Hinv & _ & _ & _ & -> & ->).
  destruct Hinv as [Itl Ita Ivl Iva (L1 & L2 & L3 & L4) _ _ _ _ Irun _].
  assert (tl' = tl) as -> by congruence. assert (ta' = ta) as -> by congruence.
  assert (vl' = vl) as -> by congruence. assert (va' = va) as -> by congruence.
  assert (S j = n) as <-; [| done].
  destruct (decide (S j = n)) as [| Hne]; [done | exfalso].
  assert (forall i, (j - 19 <= i < j - 19 + 20)%nat -> stalled va i) as Hst'
    by (intros i Hi; apply Hst; lia).
  pose proof (tracker_stalled_run va (j - 19) 20 Hst') as Hrun.
  replace (j - 19 + 20)%nat with (S j) in Hrun by lia.
  pose proof (tracker_patience_nonneg (take (j - 19) va)).
  pose proof (tracker_patience_bound va n ltac:(lia) Irun (S j) ltac:(lia)).
  specialize (Irun (S j) ltac:(lia)). lia.
Qed.

(** C5. After any number of epochs the best accuracy is the greatest
    validation accuracy recorded so far, or [0] when none exceeds it,
    and the snapshot holds the parameters of the network at the end of
    the first epoch that reached it (the initial ones when none did);
    the network [train_network] returns has that snapshot loaded. In a
    run from the initial state the network never leaves its initial
    parameters, as no batch of the Train phase completes; so the same is
    proved of the loop run from any state [st0], whose snapshot and
    network may hold different parameters: the snapshot is replaced, by
    the parameters of the network, at the first epoch whose accuracy is
    greater than every one before, and only there, and what is returned
    after the loop has the snapshot loaded whatever the network holds. *)
Theorem best_model_invariant w0 :
  (forall m st,
     epoch_loop (seq 0 m) (initial_state gpu w0) = Ok st ->
     exists va,
       accuracies st !! "Valid" = Some va /\
       best_acc st = py_max0 va /\
       best_record w0 va (best_acc st) (best_model_wts st)) /\
  (forall max_epochs w b ls accs,
     train_network w0 max_epochs = Ok (w, b, ls, accs) ->
     exists va,
       accs !! "Valid" = Some va /\
       b = py_max0 va /\
       best_record w0 va b (weights w)) /\
  (forall st0 old m st,
     comparable (best_acc st0) ->
     accuracies st0 !! "Valid" = Some old ->
     epoch_loop (seq 0 m) st0 = Ok st ->
     exists new,
       accuracies st !! "Valid" = Some (old ++ new) /\
       tracked_from st0 new (best_acc st) (best_model_wts st) /\
       weights (finish st).1.1.1 = best_model_wts st /\
       (finish st).1.1.2 = best_acc st).
Proof.
  split; [| split].
  - intros m st H.
    apply epoch_loop_inv in H as (n & tl & ta & vl & va & _ & _ & Hinv).
    destruct Hinv as [_ _ _ Iva _ _ _ _ Itr _ Irec].
    exists va. split; [done |]. split; [| done].
    rewrite <- tracker_best, <- Itr. reflexivity.
  - intros max_epochs w b ls accs H. apply train_network_Ok in H
      as (n & st & tl & ta & vl & va & _ & _ & Hinv & _ & -> & -> & -> & ->).
    destruct Hinv as [_ _ _ Iva _ _ _ _ Itr _ Irec].
    exists va. split; [done |]. split; [| done].
    rewrite <- tracker_best, <- Itr. reflexivity.
  - intros st0 old m st Hc Hold H.
    destruct (epoch_loop_tracked _ _ _ _ _ _ _ _ _ Hc Hold H)
      as (new & Hva & Htr).
    exists new. split; [done |]. split; [done |].
    split; apply finish_loads_snapshot.
Qed.

(** C9. Before the first epoch the best accuracy is [0], the patience
    is [0] and the snapshot holds the initial parameters; and a run in
    which no validation accuracy exceeds [0] returns the network with
    its initial parameters and the best accuracy [0]. Of the loop run
    from any state [st0]: when no accuracy it records exceeds the best
    accuracy of [st0], what is returned has the snapshot of [st0] loaded,
    whatever the network holds, with the best accuracy of [st0]; when one
    does, the best accuracy returned is greater. *)
Theorem initial_best w0 :
  best_acc (initial_state gpu w0) = PyInt 0 /\
  patience (initial_state gpu w0) = 0 /\
  best_model_wts (initial_state gpu w0) = weights w0 /\
  (forall max_epochs w b ls accs va,
     train_network w0 max_epochs = Ok (w, b, ls, accs) ->
     accs !! "Valid" = Some va ->
     (forall x, x ∈ va -> py_gt x (PyInt 0) = false) ->
     weights w = weights w0 /\ b = PyInt 0) /\
  (forall st0 old m st new,
     comparable (best_acc st0) ->
     accuracies st0 !! "Valid" = Some old ->
     epoch_loop (seq 0 m) st0 = Ok st ->
     accuracies st !! "Valid" = Some (old ++ new) ->
     ((forall x, x ∈ new -> py_gt x (best_acc st0) = false) ->
      weights (finish st).1.1.1 = best_model_wts st0 /\
      (finish st).1.1.2 = best_acc st0) /\
     ((exists x, x ∈ new /\ py_gt x (best_acc st0) = true) ->
      py_gt (finish st).1.1.2 (best_acc st0) = true)).
Proof.
  split; [reflexivity |]. split; [reflexivity |].
  split; [unfold initial_state; by destruct gpu |]. split.
  - intros max_epochs w b ls accs va H Hva Hle. apply train_network_Ok in H
      as (n & st & tl & ta & vl & va' & _ & _ & Hinv & _ & -> & -> & -> & ->).
    destruct Hinv as [_ _ _ Iva _ _ _ _ _ _ (_ & Irec)].
    assert (va' = va) as -> by congruence.
    destruct Irec as [[-> ->] | (k & st_k & Hk & Hpos & _)]; [done |].
    apply list_elem_of_lookup_2, Hle in Hk. congruence.
  - intros st0 old m st new Hc Hold H Hva.
    destruct (epoch_loop_tracked _ _ _ _ _ _ _ _ _ Hc Hold H)
      as (new' & Hva' & Hbound & Hrec).
    assert (new' = new) as ->.
    { rewrite Hva in Hva'. injection Hva' as E.
      by apply app_inv_head in E. }
    destruct (finish_loads_snapshot st) as (-> & -> & _). split.
    + intros Hle.
      destruct Hrec as [(-> & -> & _) | (k & st_k & Hk & Hgt & _)]; [done |].
      apply list_elem_of_lookup_2, Hle in Hk. congruence.
    + intros (x & Hx & Hgt).
      destruct Hrec as [(_ & _ & Hle) | (k & st_k & _ & Hb & _)]; [| done].
      apply Hle in Hx. congruence.
Qed.

(** C10. With [max_epochs = 0] no phase is run: [train_network] returns
    the network with its initial parameters, the best accuracy [0] and
    empty lists of losses and accuracies, after printing the elapsed
    time. *)
Theorem no_epochs w0 :
  exists w,
    train_network w0 0 =
      Ok (w, PyInt 0, {["Train" := []; "Valid" := []]},
          {["Train" := []; "Valid" := []]}) /\
    weights w = weights w0 /\
    log w = log w0 ++ (if gpu then [EvCuda] else [])
              ++ [EvPrint LBlank; EvPrint LElapsed; EvLoadStateDict].
Proof.
  eexists. split; [reflexivity |]. unfold initial_state.
  destruct gpu; cbn; rewrite <- ?app_assoc; done.
Qed.

End Properties.

(** ** Reshaping a batch into windows *)

(** C2 (as amended). For a raw batch of [n * window_size] frames, the
    window tensor has shape [[window_size; n; 3; 224; 224]] and holds at
    window position [w] and batch position [b] the frame of raw index
    [b * window_size + w]: frame [k] goes to window position
    [k mod window_size] and batch position [k / window_size]. *)
Theorem reshape_windows_layout {A} (data : Z -> A) (n window_size : Z) :
  0 < window_size ->
  exists win,
    reshape_windows (of_storage [n * window_size; 3; 224; 224] data)
      window_size = Ok win /\
    shape win = [window_size; n; 3; 224; 224] /\
    (forall w b c h x,
       tget win [w; b; c; h; x] =
         tget (of_storage [n * window_size; 3; 224; 224] data)
           [b * window_size + w; c; h; x]) /\
    (forall k c h x,
       tget win [k mod window_size; k / window_size; c; h; x] =
         tget (of_storage [n * window_size; 3; 224; 224] data) [k; c; h; x]).
Proof.
  intros Hws.
  destruct (reshape_windows_flat
              (of_storage [n * window_size; 3; 224; 224] data) n window_size)
    as (win & Hwin & Hshape & Hget).
  - apply of_storage_contiguous.
  - exact Hws.
  - cbn. unfold frame. lia.
  - exists win. split; [exact Hwin |]. split; [exact Hshape |].
    assert (forall w b c h x,
      tget win [w; b; c; h; x] =
        tget (of_storage [n * window_size; 3; 224; 224] data)
          [b * window_size + w; c; h; x]) as Hwb.
    { intros w b c h x. rewrite Hget. unfold tget. cbn. f_equal.
      unfold frame. lia. }
    split; [exact Hwb |].
    intros k c h x. rewrite Hwb. do 2 f_equal.
    rewrite Z.mul_comm. symmetry. apply Z.div_mod. lia.
Qed.

Lemma reshape_windows_layout_witness :
  0 < 3 /\
  exists win,
    reshape_windows Toy.six_frames 3 = Ok win /\
    shape win = [3; 2; 3; 224; 224] /\
    tget win [1 mod 3; 1 / 3; 0; 0; 0] = tget Toy.six_frames [1; 0; 0; 0].
Proof.
  split; [lia |].
  destruct (reshape_windows_layout (fun k : Z => k) 2 3 ltac:(lia))
    as (win & Hwin & Hshape & _ & Hk).
  exists win. split; [exact Hwin |]. split; [exact Hshape |]. apply Hk.
Defined.

(** C2 as stated fails: with [batch_size = 2] and [window_size = 3], the
    frame of raw index [k = 1] is not at window position
    [(k / batch_size) mod window_size] and batch position
    [k mod batch_size], where frame 3 is. *)
Lemma reshape_windows_claimed_layout_fails :
  exists win,
    reshape_windows Toy.six_frames 3 = Ok win /\
    tget win [(1 / 2) mod 3; 1 mod 2; 0; 0; 0]
      <> tget Toy.six_frames [1; 0; 0; 0] /\
    tget win [(1 / 2) mod 3; 1 mod 2; 0; 0; 0]
      = tget Toy.six_frames [3; 0; 0; 0].
Proof.
  eexists. split; [reflexivity |]. split; [| reflexivity].
  vm_compute. discriminate.
Qed.

(** ** The properties on the small instance *)

(** C1, on a run: one training batch makes [train_network] raise. *)
Example failing_run_raises :
  Toy.failing_run = Raise (NameError "sequence_loss").
Proof. vm_compute. reflexivity. Qed.

Lemma valid_batch_keeps_parameters_witness :
  batch_body 5 "Valid" (Toy.toy_batch 1 4 [0; 0; 0; 0])
    (Toy.toy_world, PyInt 0, 0) = Ok Toy.valid_step /\
  weights Toy.valid_step.1.1 = weights Toy.toy_world /\
  opt_state Toy.valid_step.1.1 = opt_state Toy.toy_world /\
  log Toy.valid_step.1.1 =
    log Toy.toy_world ++ [EvZeroGrad; EvForward].
Proof.
  assert (batch_body 5 "Valid" (Toy.toy_batch 1 4 [0; 0; 0; 0])
            (Toy.toy_world, PyInt 0, 0)
          = Ok (Toy.valid_step.1.1, Toy.valid_step.1.2,
                Toy.valid_step.2)) as H
    by (vm_compute; reflexivity).
  split; [vm_compute; reflexivity |].
  exact (valid_batch_keeps_parameters 5 _ _ _ _ _ _ _ H).
Defined.

Lemma epoch_accuracy_witness :
  Toy.half_phase = Ok Toy.half_done /\
  accuracies Toy.half_done !! "Valid"
    = Some [PyFloat (S754_finite false 4503599627370496 (-53))] /\
  exists loader vs size acc old,
    Toy.toy_loaders Toy.no_batches Toy.half_valid !! "Valid"
      = Some loader /\
    Forall2
      (batch_values 5
         (net_train (bool_decide ("Valid" = "Train")) (net Toy.half_state)))
      (loader 0%nat) vs /\
    Toy.half_sizes !! "Valid" = Some size /\
    py_truediv (PyInt (foldr Z.add 0 vs.*2)) (PyInt (size * (50 - 5 + 1)))
      = Ok acc /\
    accuracies Toy.half_state !! "Valid" = Some old /\
    accuracies Toy.half_done !! "Valid" = Some (old ++ [acc]).
Proof.
  assert (Toy.half_phase = Ok Toy.half_done) as H
    by (vm_compute; reflexivity).
  split; [exact H |]. split; [vm_compute; reflexivity |].
  exact (proj1 (epoch_accuracy _ _ _ _ _ _ _ _ _ H)).
Defined.

Lemma epoch_loss_witness :
  Toy.half_phase = Ok Toy.half_done /\
  losses Toy.half_done !! "Valid" = Some [PyFloat (float_of 46)] /\
  float_of 46 = S754_finite false 6473924464345088 (-47) /\
  exists loader vs running_loss scaled size loss old,
    Toy.toy_loaders Toy.no_batches Toy.half_valid !! "Valid"
      = Some loader /\
    Forall2
      (batch_values 5
         (net_train (bool_decide ("Valid" = "Train")) (net Toy.half_state)))
      (loader 0%nat) vs /\
    sum_losses vs.*1 (PyInt 0) = Ok running_loss /\
    Toy.half_sizes !! "Valid" = Some size /\
    py_mul running_loss (PyInt 2) = Ok scaled /\
    py_truediv scaled (PyInt size) = Ok loss /\
    losses Toy.half_state !! "Valid" = Some old /\
    losses Toy.half_done !! "Valid" = Some (old ++ [loss]) /\
    (forall ls : list Z,
       vs.*1 = float_of <$> ls ->
       Forall (fun l => 0 <= l) ls -> foldr Z.add 0 ls <= 256 ->
       1 <= 2 <= 8 -> 1 <= size <= 16 ->
       (size | foldr Z.add 0 ls * 2) ->
       loss = PyFloat (float_of (foldr Z.add 0 ls * 2 / size)) /\
       exists q,
         float_value (float_of (foldr Z.add 0 ls * 2 / size)) = Some q /\
         Qeq q (inject_Z (foldr Z.add 0 ls * 2 / size))).
Proof.
  assert (Toy.half_phase = Ok Toy.half_done) as H
    by (vm_compute; reflexivity).
  split; [exact H |]. split; [vm_compute; reflexivity |].
  split; [vm_compute; reflexivity |].
  exact (epoch_loss _ _ _ _ _ _ _ _ _ H).
Defined.


Lemma early_stopping_witness :
  Toy.constant_run = Ok Toy.constant_outcome /\
  (forall i, (20 - 19 <= i <= 20)%nat ->
     stalled (default [] (Toy.constant_outcome.2 !! "Valid")) i) /\
  length (default [] (Toy.constant_outcome.2 !! "Valid")) = 21%nat /\
  length (default [] (Toy.constant_outcome.2 !! "Train")) = 21%nat /\
  length (default [] (Toy.constant_outcome.1.2 !! "Valid")) = 21%nat /\
  length (default [] (Toy.constant_outcome.1.2 !! "Train")) = 21%nat.
Proof.
  assert (train_network
            (Toy.toy_loaders Toy.no_batches Toy.constant_valid)
            Toy.toy_sizes 1 5 5 false Toy.toy_world 30
          = Ok (Toy.constant_outcome.1.1.1, Toy.constant_outcome.1.1.2,
                Toy.constant_outcome.1.2, Toy.constant_outcome.2)) as H
    by (vm_compute; reflexivity).
  assert (forall i, (20 - 19 <= i <= 20)%nat ->
            stalled (default [] (Toy.constant_outcome.2 !! "Valid")) i)
    as Hst.
  { intros i Hi. apply (stalledb_range _ 1 20); [vm_compute; reflexivity | lia]. }
  split; [vm_compute; reflexivity |]. split; [exact Hst |].
  refine (early_stopping _ _ _ _ _ _ _ _ _ _ _ _
            (default [] (Toy.constant_outcome.1.2 !! "Train"))
            (default [] (Toy.constant_outcome.2 !! "Train"))
            (default [] (Toy.constant_outcome.1.2 !! "Valid"))
            (default [] (Toy.constant_outcome.2 !! "Valid"))
            20%nat H _ _ _ _ _ Hst);
    try (vm_compute; reflexivity).
  vm_compute. lia.
Defined.

(** ** The runs resumed on the small instance *)

Lemma resumed_valid best :
  accuracies (ToyResume.resumed best) !! "Valid" = Some [best].
Proof. reflexivity. Qed.

Lemma kept_run :
  epoch_loop (Toy.toy_loaders Toy.no_batches Toy.varying_valid)
    Toy.toy_sizes 1 5 5 (seq 0 4)
    (ToyResume.resumed ToyResume.three_quarters)
  = Ok ToyResume.kept.
Proof. vm_compute. reflexivity. Qed.

Lemma improved_run :
  epoch_loop (Toy.toy_loaders Toy.no_batches Toy.varying_valid)
    Toy.toy_sizes 1 5 5 (seq 0 4)
    (ToyResume.resumed ToyResume.one_half)
  = Ok ToyResume.improved.
Proof. vm_compute. reflexivity. Qed.

Lemma kept_valid :
  accuracies ToyResume.kept !! "Valid"
    = Some ([ToyResume.three_quarters] ++ ToyResume.later).
Proof. vm_compute. reflexivity. Qed.

Lemma improved_valid :
  accuracies ToyResume.improved !! "Valid"
    = Some ([ToyResume.one_half] ++ ToyResume.later).
Proof. vm_compute. reflexivity. Qed.

Lemma later_kept x :
  x ∈ ToyResume.later ->
  py_gt x (best_acc (ToyResume.resumed ToyResume.three_quarters)) = false.
Proof.
  intros Hx. apply list_elem_of_In in Hx. unfold ToyResume.later in Hx.
  cbn [In] in Hx.
  destruct Hx as [<- | [<- | [<- | [<- | []]]]]; vm_compute; reflexivity.
Qed.

Lemma later_improved :
  exists x, x ∈ ToyResume.later /\
    py_gt x (best_acc (ToyResume.resumed ToyResume.one_half)) = true.
Proof.
  exists ToyResume.three_quarters. split; [| vm_compute; reflexivity].
  apply list_elem_of_In. unfold ToyResume.later. cbn [In]. auto.
Qed.

Lemma kept_returned :
  weights (net ToyResume.kept) = 0 /\
  best_model_wts ToyResume.kept = 42 /\
  weights (finish ToyResume.kept).1.1.1 = 42 /\
  (finish ToyResume.kept).1.1.2 = ToyResume.three_quarters.
Proof. vm_compute. done. Qed.

Lemma improved_returned :
  best_model_wts ToyResume.improved = 0 /\
  best_acc ToyResume.improved = ToyResume.three_quarters /\
  weights (finish ToyResume.improved).1.1.1 = 0 /\
  (finish ToyResume.improved).1.1.2 = ToyResume.three_quarters /\
  py_gt (finish ToyResume.improved).1.1.2
    (best_acc (ToyResume.resumed ToyResume.one_half)) = true.
Proof. vm_compute. done. Qed.

Lemma best_model_invariant_witness :
  (Toy.varying_run = Ok Toy.varying_outcome /\
   exists va,
     Toy.varying_outcome.2 !! "Valid" = Some va /\
     Toy.varying_outcome.1.1.2 = py_max0 va /\
     best_record
       (Toy.toy_loaders Toy.no_batches Toy.varying_valid)
       Toy.toy_sizes 1 5 5 false Toy.toy_world va
       Toy.varying_outcome.1.1.2 (weights Toy.varying_outcome.1.1.1)) /\
  (comparable (best_acc (ToyResume.resumed ToyResume.three_quarters)) /\
   accuracies (ToyResume.resumed ToyResume.three_quarters) !! "Valid"
     = Some [ToyResume.three_quarters] /\
   ToyResume.resumed_run ToyResume.three_quarters = Ok ToyResume.kept /\
   (weights (net ToyResume.kept) = 0 /\
    best_model_wts ToyResume.kept = 42 /\
    weights (finish ToyResume.kept).1.1.1 = 42 /\
    (finish ToyResume.kept).1.1.2 = ToyResume.three_quarters) /\
   exists new,
     accuracies ToyResume.kept !! "Valid"
       = Some ([ToyResume.three_quarters] ++ new) /\
     tracked_from
       (Toy.toy_loaders Toy.no_batches Toy.varying_valid) Toy.toy_sizes 1 5 5
       (ToyResume.resumed ToyResume.three_quarters) new
       (best_acc ToyResume.kept) (best_model_wts ToyResume.kept) /\
     weights (finish ToyResume.kept).1.1.1 = best_model_wts ToyResume.kept /\
     (finish ToyResume.kept).1.1.2 = best_acc ToyResume.kept) /\
  (comparable (best_acc (ToyResume.resumed ToyResume.one_half)) /\
   accuracies (ToyResume.resumed ToyResume.one_half) !! "Valid"
     = Some [ToyResume.one_half] /\
   ToyResume.resumed_run ToyResume.one_half = Ok ToyResume.improved /\
   best_model_wts (ToyResume.resumed ToyResume.one_half) = 42 /\
   (best_model_wts ToyResume.improved = 0 /\
    best_acc ToyResume.improved = ToyResume.three_quarters /\
    weights (finish ToyResume.improved).1.1.1 = 0 /\
    (finish ToyResume.improved).1.1.2 = ToyResume.three_quarters /\
    py_gt (finish ToyResume.improved).1.1.2
      (best_acc (ToyResume.resumed ToyResume.one_half)) = true) /\
   exists new,
     accuracies ToyResume.improved !! "Valid"
       = Some ([ToyResume.one_half] ++ new) /\
     tracked_from
       (Toy.toy_loaders Toy.no_batches Toy.varying_valid) Toy.toy_sizes 1 5 5
       (ToyResume.resumed ToyResume.one_half) new
       (best_acc ToyResume.improved) (best_model_wts ToyResume.improved) /\
     weights (finish ToyResume.improved).1.1.1
       = best_model_wts ToyResume.improved /\
     (finish ToyResume.improved).1.1.2 = best_acc ToyResume.improved).
Proof.
  assert (train_network
            (Toy.toy_loaders Toy.no_batches Toy.varying_valid)
            Toy.toy_sizes 1 5 5 false Toy.toy_world 4
          = Ok (Toy.varying_outcome.1.1.1, Toy.varying_outcome.1.1.2,
                Toy.varying_outcome.1.2, Toy.varying_outcome.2)) as H
    by (vm_compute; reflexivity).
  assert (comparable (best_acc (ToyResume.resumed ToyResume.three_quarters)))
    as Hck by reflexivity.
  assert (comparable (best_acc (ToyResume.resumed ToyResume.one_half)))
    as Hci by reflexivity.
  split; [| split].
  - split; [vm_compute; reflexivity |].
    exact (proj1 (proj2 (best_model_invariant _ _ _ _ _ false Toy.toy_world))
             _ _ _ _ _ H).
  - split; [exact Hck |]. split; [apply resumed_valid |].
    split; [exact kept_run |]. split; [exact kept_returned |].
    exact (proj2 (proj2 (best_model_invariant _ _ _ _ _ false Toy.toy_world))
             _ _ _ _ Hck (resumed_valid _) kept_run).
  - split; [exact Hci |]. split; [apply resumed_valid |].
    split; [exact improved_run |]. split; [reflexivity |].
    split; [exact improved_returned |].
    exact (proj2 (proj2 (best_model_invariant _ _ _ _ _ false Toy.toy_world))
             _ _ _ _ Hci (resumed_valid _) improved_run).
Defined.

Lemma initial_best_witness :
  (Toy.wrong_run = Ok Toy.wrong_outcome /\
   Toy.wrong_outcome.2 !! "Valid"
     = Some (replicate 3 (PyFloat (S754_zero false))) /\
   (forall x, x ∈ replicate 3 (PyFloat (S754_zero false)) ->
      py_gt x (PyInt 0) = false) /\
   weights Toy.wrong_outcome.1.1.1 = weights Toy.toy_world /\
   Toy.wrong_outcome.1.1.2 = PyInt 0) /\
  (comparable (best_acc (ToyResume.resumed ToyResume.three_quarters)) /\
   accuracies (ToyResume.resumed ToyResume.three_quarters) !! "Valid"
     = Some [ToyResume.three_quarters] /\
   ToyResume.resumed_run ToyResume.three_quarters = Ok ToyResume.kept /\
   accuracies ToyResume.kept !! "Valid"
     = Some ([ToyResume.three_quarters] ++ ToyResume.later) /\
   (forall x, x ∈ ToyResume.later ->
      py_gt x (best_acc (ToyResume.resumed ToyResume.three_quarters))
        = false) /\
   best_model_wts (ToyResume.resumed ToyResume.three_quarters) = 42 /\
   (weights (net ToyResume.kept) = 0 /\
    best_model_wts ToyResume.kept = 42 /\
    weights (finish ToyResume.kept).1.1.1 = 42 /\
    (finish ToyResume.kept).1.1.2 = ToyResume.three_quarters) /\
   weights (finish ToyResume.kept).1.1.1
     = best_model_wts (ToyResume.resumed ToyResume.three_quarters) /\
   (finish ToyResume.kept).1.1.2
     = best_acc (ToyResume.resumed ToyResume.three_quarters)) /\
  (comparable (best_acc (ToyResume.resumed ToyResume.one_half)) /\
   accuracies (ToyResume.resumed ToyResume.one_half) !! "Valid"
     = Some [ToyResume.one_half] /\
   ToyResume.resumed_run ToyResume.one_half = Ok ToyResume.improved /\
   accuracies ToyResume.improved !! "Valid"
     = Some ([ToyResume.one_half] ++ ToyResume.later) /\
   (exists x, x ∈ ToyResume.later /\
      py_gt x (best_acc (ToyResume.resumed ToyResume.one_half)) = true) /\
   best_model_wts (ToyResume.resumed ToyResume.one_half) = 42 /\
   (best_model_wts ToyResume.improved = 0 /\
    best_acc ToyResume.improved = ToyResume.three_quarters /\
    weights (finish ToyResume.improved).1.1.1 = 0 /\
    (finish ToyResume.improved).1.1.2 = ToyResume.three_quarters /\
    py_gt (finish ToyResume.improved).1.1.2
      (best_acc (ToyResume.resumed ToyResume.one_half)) = true) /\
   py_gt (finish ToyResume.improved).1.1.2
     (best_acc (ToyResume.resumed ToyResume.one_half)) = true).
Proof.
  assert (train_network
            (Toy.toy_loaders Toy.no_batches Toy.wrong_valid)
            Toy.toy_sizes 1 5 5 true Toy.toy_world 3
          = Ok (Toy.wrong_outcome.1.1.1, Toy.wrong_outcome.1.1.2,
                Toy.wrong_outcome.1.2, Toy.wrong_outcome.2)) as H
    by (vm_compute; reflexivity).
  assert (Toy.wrong_outcome.2 !! "Valid"
          = Some (replicate 3 (PyFloat (S754_zero false)))) as Hva
    by (vm_compute; reflexivity).
  assert (forall x, x ∈ replicate 3 (PyFloat (S754_zero false)) ->
            py_gt x (PyInt 0) = false) as Hle.
  { intros x Hx. apply elem_of_replicate in Hx as [-> _]. reflexivity. }
  assert (comparable (best_acc (ToyResume.resumed ToyResume.three_quarters)))
    as Hck by reflexivity.
  assert (comparable (best_acc (ToyResume.resumed ToyResume.one_half)))
    as Hci by reflexivity.
  split; [| split].
  - split; [vm_compute; reflexivity |]. split; [exact Hva |].
    split; [exact Hle |].
    exact (proj1 (proj2 (proj2 (proj2
             (initial_best _ _ _ _ _ true Toy.toy_world))))
             _ _ _ _ _ _ H Hva Hle).
  - split; [exact Hck |]. split; [apply resumed_valid |].
    split; [exact kept_run |]. split; [exact kept_valid |].
    split; [exact later_kept |]. split; [reflexivity |].
    split; [exact kept_returned |].
    exact (proj1 (proj2 (proj2 (proj2 (proj2
             (initial_best _ _ _ _ _ true Toy.toy_world))))
             _ _ _ _ _ Hck (resumed_valid _) kept_run kept_valid)
             later_kept).
  - split; [exact Hci |]. split; [apply resumed_valid |].
    split; [exact improved_run |]. split; [exact improved_valid |].
    split; [exact later_improved |]. split; [reflexivity |].
    split; [exact improved_returned |].
    exact (proj2 (proj2 (proj2 (proj2 (proj2
             (initial_best _ _ _ _ _ true Toy.toy_world))))
             _ _ _ _ _ Hci (resumed_valid _) improved_run improved_valid)
             later_improved).
Defined.

(** * Further properties *)

Lemma py_truediv_zero (d : Z) (a : num) :
  py_truediv (PyInt 0) (PyInt d) = Ok a -> d <> 0 /\ float_zero a.
Proof.
  cbn [py_truediv]. unfold int_truediv.
  destruct (Z.eqb_spec d 0) as [-> | Hd]; [discriminate |].
  cbn. intros H. injection H as <-. split; [exact Hd | by eexists].
Qed.

Lemma py_truediv_by_zero (a : num) (n : Z) :
  a = PyInt n \/ (exists f, a = PyFloat f) ->
  py_truediv a (PyInt 0) = Raise ZeroDivisionError.
Proof.
  intros [-> | [f ->]]; reflexivity.
Qed.

Section Worlds.
Context {px W G O Out Loss : Type}.
Context `{!Collaborators px W G O Out Loss}.
Variable dataloaders : gmap string (@dataloader px).
Variable dataset_sizes : gmap string Z.
Variable batch_size sequence_len window_size : Z.
Variable gpu : bool.

Implicit Types (w : @world W G O) (st : @loop_state W G O).

#[local] Abbreviation phase_body :=
  (phase_body dataloaders dataset_sizes batch_size sequence_len window_size).
#[local] Abbreviation epoch_body :=
  (epoch_body dataloaders dataset_sizes batch_size sequence_len window_size).
#[local] Abbreviation epoch_loop :=
  (epoch_loop dataloaders dataset_sizes batch_size sequence_len window_size).
#[local] Abbreviation executed :=
  (executed dataloaders dataset_sizes batch_size sequence_len window_size).

Lemma batch_event_quiet evs :
  Forall batch_event evs -> Forall (fun ev => ~ updates_parameters ev) evs.
Proof.
  intros H. eapply Forall_impl; [exact H |].
  intros ev [-> | ->] [E | E]; discriminate.
Qed.

(** What a phase that completes does to the network. *)
Lemma phase_body_world epoch phase st st' :
  phase_body epoch phase st = Ok st' ->
  weights (net st') = weights (net st) /\
  opt_state (net st') = opt_state (net st) /\
  on_gpu (net st') = on_gpu (net st) /\
  training (net st') = bool_decide (phase = "Train") /\
  exists evs,
    log (net st') = log (net st) ++ evs /\
    Forall (fun ev => ~ updates_parameters ev) evs.
Proof.
  intros H. apply phase_body_Ok in H
    as (loader & w & rl & rc & size & scaled & el & ea & ls & accs
        & _ & Hb & _ & _ & _ & _ & _ & _ & Hn & _).
  apply batches_Ok in Hb as (Hw & Ho & Ht & Hg & (evs & Hlog & Hevs) & _).
  rewrite Hn. cbn [print emit weights opt_state on_gpu training log].
  rewrite Hw, Ho, Ht, Hg, Hlog. cbn [net_train emit weights opt_state on_gpu training log].
  repeat (split; [reflexivity |]).
  eexists. split; [rewrite <- !app_assoc; reflexivity |].
  apply Forall_app. split; [| apply Forall_app; split].
  - constructor; [| constructor]. intros [H | H]; discriminate.
  - by apply batch_event_quiet.
  - constructor; [| constructor]. intros [H | H]; discriminate.
Qed.

(** What a training phase that completes needed and recorded. *)
Lemma train_phase_Ok epoch st st' :
  phase_body epoch "Train" st = Ok st' ->
  exists loader size el ea ls accs,
    dataloaders !! "Train" = Some loader /\ loader epoch = [] /\
    dataset_sizes !! "Train" = Some size /\
    size * (sequence_len - window_size + 1) <> 0 /\
    float_zero el /\ float_zero ea /\
    losses st !! "Train" = Some ls /\
    accuracies st !! "Train" = Some accs /\
    losses st' = <["Train" := ls ++ [el]]> (losses st) /\
    accuracies st' = <["Train" := accs ++ [ea]]> (accuracies st).
Proof.
  intros H. pose proof H as H'.
  apply train_pass_empty in H' as (loader & Hld & Hempty).
  apply phase_body_Ok in H
    as (loader' & w & rl & rc & size & scaled & el & ea & ls & accs
        & Hld' & Hb & Hsz & Hmul & Hel & Hea & Hls & Haccs & _ & Hl & Ha & _).
  assert (loader' = loader) as -> by congruence.
  rewrite Hempty in Hb. cbn [for_each] in Hb. injection Hb as _ <- <-.
  cbn [py_mul] in Hmul. rewrite Z.mul_0_l in Hmul. injection Hmul as <-.
  apply py_truediv_zero in Hel as (_ & Hel).
  apply py_truediv_zero in Hea as (Hne & Hea).
  exists loader, size, el, ea, ls, accs. auto 12.
Qed.

Lemma valid_phase_Ok epoch st st' :
  phase_body epoch "Valid" st = Ok st' ->
  exists loader size,
    dataloaders !! "Valid" = Some loader /\
    dataset_sizes !! "Valid" = Some size /\
    size * (sequence_len - window_size + 1) <> 0.
Proof.
  intros H. apply phase_body_Ok in H
    as (loader & w & rl & rc & size & scaled & el & ea & ls & accs
        & Hld & _ & Hsz & _ & _ & Hea & _).
  exists loader, size. split; [done |]. split; [done |].
  cbn [py_truediv] in Hea. unfold int_truediv in Hea.
  destruct (Z.eqb_spec (size * (sequence_len - window_size + 1)) 0) as [-> | Hne];
    [discriminate | exact Hne].
Qed.

Lemma epoch_body_phases epoch st st' :
  epoch_body epoch st = Ok st' ->
  exists st1,
    phase_body epoch "Train"
      (mkLoop (print LRule (print (LEpoch (Z.of_nat epoch + 1))
                 (print LBlank (net st))))
         (best_model_wts st) (best_acc st) (losses st) (accuracies st)
         (patience st)) = Ok st1 /\
    phase_body epoch "Valid" st1 = Ok st'.
Proof.
  unfold epoch_body. cbn [for_each]. intros H.
  bind_inv H. bind_inv H. injection H as <-. eauto.
Qed.

(** What an epoch that completes does to the network, needed and
    recorded. *)
Lemma epoch_body_world epoch st st' :
  epoch_body epoch st = Ok st' ->
  weights (net st') = weights (net st) /\
  opt_state (net st') = opt_state (net st) /\
  on_gpu (net st') = on_gpu (net st) /\
  training (net st') = false /\
  exists evs,
    log (net st') = log (net st) ++ evs /\
    Forall (fun ev => ~ updates_parameters ev) evs.
Proof.
  intros H. apply epoch_body_phases in H as (st1 & H1 & H2).
  apply phase_body_world in H1 as (Hw1 & Ho1 & Hg1 & _ & evs1 & Hl1 & He1).
  apply phase_body_world in H2 as (Hw2 & Ho2 & Hg2 & Ht2 & evs2 & Hl2 & He2).
  cbn [net print emit weights opt_state on_gpu training log] in *.
  rewrite Hw2, Hw1, Ho2, Ho1, Hg2, Hg1, Ht2, Hl2, Hl1.
  repeat (split; [reflexivity |]).
  eexists. split; [rewrite <- !app_assoc; reflexivity |].
  repeat (apply Forall_app; split); try assumption;
    (apply Forall_singleton; intros [E | E]; discriminate).
Qed.
End Worlds.

(** The patience the tracker ends with counts stalled epochs at the end
    of the list. *)
Lemma tracker_patience_stalled l :
  (Z.to_nat (tracker l).2 <= length l)%nat /\
  forall i, (length l - Z.to_nat (tracker l).2 <= i < length l)%nat ->
    stalled l i.
Proof.
  induction l as [| a l [IHn IHs]] using rev_ind.
  - split; [cbn; lia | intros i Hi; cbn in Hi; lia].
  - rewrite tracker_snoc, length_app. unfold track. cbn [length].
    pose proof (tracker_patience_nonneg l) as Hnn.
    rewrite tracker_best.
    destruct (py_gt a (py_max0 l)) eqn:Hgt; cbn [fst snd].
    + split; [lia | intros i Hi; cbn in Hi; lia].
    + rewrite Z2Nat.inj_add by lia. split; [lia |].
      intros i Hi. destruct (decide (i = length l)) as [-> | Hne].
      * exists a. split; [by apply list_lookup_middle |].
        by rewrite take_app_length.
      * destruct (IHs i ltac:(lia)) as (x & Hx & Hxs).
        exists x. split; [rewrite lookup_app_l by lia; exact Hx |].
        rewrite take_app_le by lia. exact Hxs.
Qed.

Section Runs.
Context {px W G O Out Loss : Type}.
Context `{!Collaborators px W G O Out Loss}.
Variable dataloaders : gmap string (@dataloader px).
Variable dataset_sizes : gmap string Z.
Variable batch_size sequence_len window_size : Z.
Variable gpu : bool.
Variable w0 : @world W G O.

Implicit Types (w : @world W G O) (st : @loop_state W G O).

#[local] Abbreviation phase_body :=
  (phase_body dataloaders dataset_sizes batch_size sequence_len window_size).
#[local] Abbreviation epoch_body :=
  (epoch_body dataloaders dataset_sizes batch_size sequence_len window_size).
#[local] Abbreviation epoch_loop :=
  (epoch_loop dataloaders dataset_sizes batch_size sequence_len window_size).
#[local] Abbreviation executed :=
  (executed dataloaders dataset_sizes batch_size sequence_len window_size
     (initial_state gpu w0)).
#[local] Abbreviation train_network :=
  (train_network dataloaders dataset_sizes batch_size sequence_len
     window_size gpu w0).

(** What an epoch that completes needed. *)
Lemma epoch_body_requires epoch st st' :
  epoch_body epoch st = Ok st' ->
  exists train valid size_t size_v,
    dataloaders !! "Train" = Some train /\ train epoch = [] /\
    dataloaders !! "Valid" = Some valid /\
    dataset_sizes !! "Train" = Some size_t /\
    dataset_sizes !! "Valid" = Some size_v /\
    size_t * (sequence_len - window_size + 1) <> 0 /\
    size_v * (sequence_len - window_size + 1) <> 0.
Proof.
  intros H. apply epoch_body_phases in H as (st1 & H1 & H2).
  apply train_phase_Ok in H1
    as (train & size_t & _ & _ & _ & _ & Ht & He & Hst & Hnt & _).
  apply valid_phase_Ok in H2 as (valid & size_v & Hv & Hsv & Hnv).
  exists train, valid, size_t, size_v. auto 10.
Qed.

(** What an epoch that completes records for the Train phase. *)
Lemma epoch_body_train_stats epoch st st' :
  epoch_body epoch st = Ok st' ->
  exists tl ta el ea,
    losses st !! "Train" = Some tl /\
    accuracies st !! "Train" = Some ta /\
    losses st' !! "Train" = Some (tl ++ [el]) /\
    accuracies st' !! "Train" = Some (ta ++ [ea]) /\
    float_zero el /\ float_zero ea.
Proof.
  intros H. apply epoch_body_phases in H as (st1 & H1 & H2).
  apply train_phase_Ok in H1
    as (train & size_t & el & ea & tl & ta & _ & _ & _ & _ & Hel & Hea
        & Htl & Hta & Hl1 & Ha1).
  apply phase_body_Ok in H2
    as (? & ? & ? & ? & ? & ? & ? & ? & ? & ?
        & _ & _ & _ & _ & _ & _ & _ & _ & _ & Hl2 & Ha2 & _).
  cbn [losses accuracies] in *.
  exists tl, ta, el, ea. repeat (split; [assumption |]).
  rewrite Hl2, Ha2, Hl1, Ha1.
  repeat split; try assumption;
    rewrite lookup_insert_ne, lookup_insert_eq by done; reflexivity.
Qed.

(** The state of the network and the Train statistics after [n] epochs. *)
Lemma executed_world n st :
  executed n st ->
  weights (net st) = weights w0 /\
  best_model_wts st = weights w0 /\
  opt_state (net st) = opt_state w0 /\
  on_gpu (net st) = gpu || on_gpu w0 /\
  ((0 < n)%nat -> training (net st) = false) /\
  (exists evs, log (net st) = log w0 ++ evs /\
     Forall (fun ev => ~ updates_parameters ev) evs) /\
  (exists tl ta,
     losses st !! "Train" = Some tl /\ accuracies st !! "Train" = Some ta /\
     Forall float_zero tl /\ Forall float_zero ta).
Proof.
  induction 1 as [| n st st' Hex IH Hp Hb].
  - unfold initial_state. destruct gpu; cbn.
    + repeat (split; [reflexivity || lia |]). split.
      * exists [EvCuda]. split; [reflexivity |].
        apply Forall_singleton. intros [E | E]; discriminate.
      * exists [], []. repeat split; done.
    + repeat (split; [reflexivity || lia |]). split.
      * exists []. split; [by rewrite app_nil_r | constructor].
      * exists [], []. repeat split; done.
  - destruct IH as (Hw & Hbw & Ho & Hg & _ & (evs & Hlog & Hevs)
                    & tl & ta & Htl & Hta & Hztl & Hzta).
    pose proof (epoch_body_world _ _ _ _ _ _ _ _ Hb)
      as (Hw' & Ho' & Hg' & Ht' & evs' & Hlog' & Hevs').
    pose proof (epoch_body_train_stats _ _ _ Hb)
      as (tl' & ta' & el & ea & Htl' & Hta' & Hl' & Ha' & Hel & Hea).
    apply epoch_body_Ok in Hb
      as (_ & _ & _ & _ & _ & _ & _ & ea_v & _ & _ & _ & _ & _ & _ & _ & _ & Htr).
    assert (tl' = tl) as -> by congruence. assert (ta' = ta) as -> by congruence.
    split; [congruence |]. split.
    { destruct (py_gt ea_v (best_acc st)); injection Htr as -> _ _; congruence. }
    split; [congruence |]. split; [congruence |]. split; [auto |]. split.
    + exists (evs ++ evs'). split; [by rewrite Hlog', Hlog, app_assoc |].
      by apply Forall_app.
    + exists (tl ++ [el]), (ta ++ [ea]). repeat (split; [assumption |]).
      split; apply Forall_app; split; auto; by apply Forall_singleton.
Qed.

Lemma executed_requires n st i :
  executed n st -> (i < n)%nat ->
  exists train valid size_t size_v,
    dataloaders !! "Train" = Some train /\ train i = [] /\
    dataloaders !! "Valid" = Some valid /\
    dataset_sizes !! "Train" = Some size_t /\
    dataset_sizes !! "Valid" = Some size_v /\
    size_t * (sequence_len - window_size + 1) <> 0 /\
    size_v * (sequence_len - window_size + 1) <> 0.
Proof.
  induction 1 as [| n st st' Hex IH Hp Hb]; intros Hi; [lia |].
  destruct (decide (i = n)) as [-> | Hne]; [| apply IH; lia].
  by eapply epoch_body_requires.
Qed.

Lemma executed_functional n st st' :
  executed n st -> executed n st' -> st = st'.
Proof.
  intros H. revert st'. induction H as [| n st st1 Hex IH Hp Hb]; intros st' H'.
  - by inversion H'.
  - inversion H' as [| ? st2 ? Hex2 Hp2 Hb2]; subst.
    apply IH in Hex2 as <-. congruence.
Qed.

(** The loop does not go past a state whose patience is 20. *)
Lemma executed_not_stopped n st n' st' :
  executed n st -> executed n' st' -> (n' < n)%nat ->
  n' = 0%nat \/ patience st' <> 20.
Proof.
  induction 1 as [| n st st1 Hex IH Hp Hb]; intros H' Hlt; [lia |].
  destruct (decide (n' = n)) as [-> | Hne]; [| apply IH; [done | lia]].
  by rewrite (executed_functional _ _ _ H' Hex).
Qed.

(** The lists only grow from one epoch to the next. *)
Lemma executed_prefix n st n' st' tl ta vl va tl' ta' vl' va' :
  executed n st -> executed n' st' -> (n <= n')%nat ->
  run_inv dataloaders dataset_sizes batch_size sequence_len window_size gpu
    w0 n st tl ta vl va ->
  run_inv dataloaders dataset_sizes batch_size sequence_len window_size gpu
    w0 n' st' tl' ta' vl' va' ->
  tl `prefix_of` tl' /\ ta `prefix_of` ta' /\
  vl `prefix_of` vl' /\ va `prefix_of` va'.
Proof.
  intros Hex Hex'. revert tl' ta' vl' va'.
  induction Hex' as [| n' st1 st' Hex1 IH Hp Hb]; intros tl' ta' vl' va' Hle I I'.
  - assert (n = 0%nat) as -> by lia.
    destruct I as [_ _ _ _ (L1 & L2 & L3 & L4) _ _ _ _ _ _].
    destruct tl, ta, vl, va; try discriminate.
    repeat split; apply prefix_nil.
  - destruct (decide (n = S n')) as [-> | Hne].
    + assert (executed (S n') st') as Hex2 by (econstructor; eauto).
      rewrite <- (executed_functional _ _ _ Hex Hex2) in I'.
      destruct I as [A1 A2 A3 A4 _ _ _ _ _ _ _].
      destruct I' as [B1 B2 B3 B4 _ _ _ _ _ _ _].
      assert (tl' = tl) as -> by congruence.
      assert (ta' = ta) as -> by congruence.
      assert (vl' = vl) as -> by congruence.
      assert (va' = va) as -> by congruence. done.
    + destruct (executed_inv _ _ _ _ _ gpu w0 _ _ Hex1)
        as (tl1 & ta1 & vl1 & va1 & I1).
      destruct (IH tl1 ta1 vl1 va1 ltac:(lia) I I1) as (P1 & P2 & P3 & P4).
      apply epoch_body_Ok in Hb
        as (tl2 & ta2 & vl2 & va2 & el_t & ea_t & el_v & ea_v
            & Htl & Hta & Hvl & Hva & Hl & Ha & _).
      destruct I1 as [A1 A2 A3 A4 _ _ _ _ _ _ _].
      destruct I' as [B1 B2 B3 B4 _ _ _ _ _ _ _].
      rewrite Hl in B1, B3. rewrite Ha in B2, B4.
      rewrite lookup_insert_ne, lookup_insert_eq in B1, B2 by done.
      rewrite lookup_insert_eq in B3, B4.
      assert (tl' = tl1 ++ [el_t]) as -> by congruence.
      assert (ta' = ta1 ++ [ea_t]) as -> by congruence.
      assert (vl' = vl1 ++ [el_v]) as -> by congruence.
      assert (va' = va1 ++ [ea_v]) as -> by congruence.
      repeat split; by apply prefix_app_r.
Qed.
End Runs.

(** Rewrites a lookup with a hypothesis, up to the unfolding of the type
    of the values. *)
Ltac use_lookup H :=
  match type of H with
  | ?m !! ?k = ?v =>
      match goal with
      | |- context [@lookup ?K ?A ?M ?I k m] =>
          replace (@lookup K A M I k m) with v by (symmetry; exact H)
      end
  end.

Section FurtherProperties.
Context {px W G O Out Loss : Type}.
Context `{!Collaborators px W G O Out Loss}.
Variable dataloaders : gmap string (@dataloader px).
Variable dataset_sizes : gmap string Z.
Variable batch_size sequence_len window_size : Z.
Variable gpu : bool.
Variable w0 : @world W G O.

Implicit Types (w : @world W G O) (st : @loop_state W G O).

Lemma range_cons (m : Z) : 1 <= m -> exists k, range m = 0%nat :: seq 1 k.
Proof.
  intros H. unfold range. destruct (Z.to_nat m) as [| k] eqn:E; [lia |].
  by exists k.
Qed.

(** The first phase of a run of at least one epoch. *)
Lemma train_network_first_phase (max_epochs : Z) (e : exn) :
  1 <= max_epochs ->
  phase_body dataloaders dataset_sizes batch_size sequence_len window_size
    0 "Train"
    (mkLoop (print LRule (print (LEpoch 1)
               (print LBlank (net (initial_state gpu w0)))))
       (best_model_wts (initial_state gpu w0)) (PyInt 0)
       {["Train" := []; "Valid" := []]} {["Train" := []; "Valid" := []]} 0)
    = Raise e ->
  train_network dataloaders dataset_sizes batch_size sequence_len window_size
    gpu w0 max_epochs = Raise e.
Proof.
  intros Hm H. rewrite train_network_unfold.
  destruct (range_cons max_epochs Hm) as (k & ->).
  rewrite epoch_loop_cons. unfold epoch_body. cbn [for_each].
  change (Z.of_nat 0 + 1) with 1.
  cbn [initial_state net best_model_wts best_acc losses accuracies patience]
    in H |- *.
  rewrite H. reflexivity.
Qed.

#[local] Abbreviation train_network :=
  (train_network dataloaders dataset_sizes batch_size sequence_len
     window_size gpu w0).
#[local] Abbreviation executed :=
  (executed dataloaders dataset_sizes batch_size sequence_len window_size
     (initial_state gpu w0)).

Lemma train_network_executed max_epochs w b ls accs :
  train_network max_epochs = Ok (w, b, ls, accs) ->
  exists n st tl ta vl va,
    (n <= Z.to_nat max_epochs)%nat /\
    (n = Z.to_nat max_epochs \/ patience st = 20) /\
    executed n st /\
    run_inv dataloaders dataset_sizes batch_size sequence_len window_size gpu
      w0 n st tl ta vl va /\
    w = load_state_dict (best_model_wts st)
          (print LElapsed (print LBlank (net st))) /\
    b = best_acc st /\ ls = losses st /\ accs = accuracies st.
Proof.
  rewrite train_network_unfold. intros H.
  bind_inv H. rename a into st. injection H as <- <- <- <-.
  apply epoch_loop_executed in E as (n & Hn & Hex & Hor).
  destruct (executed_inv _ _ _ _ _ gpu w0 _ _ Hex) as (tl & ta & vl & va & I).
  exists n, st, tl, ta, vl, va. auto 10.
Qed.

(** A batch at the first pass over the Train loader ends the run. *)
Lemma first_batch_raises max_epochs train :
  1 <= max_epochs ->
  dataloaders !! "Train" = Some train ->
  train 0%nat <> [] ->
  exists e,
    train_network max_epochs = Raise e /\
    (e = NameError "sequence_loss" \/ exists msg, e = RuntimeError msg).
Proof.
  intros Hm Hld Hne.
  destruct (train 0%nat) as [| data rest] eqn:Ht; [done |].
  destruct (train_batch_error window_size data
              (net_train (bool_decide ("Train" = "Train"))
                 (print LRule (print (LEpoch 1)
                    (print LBlank (net (initial_state gpu w0))))),
               PyInt 0, 0)) as (e & He & Hor).
  exists e. split; [| exact Hor].
  apply train_network_first_phase; [exact Hm |].
  unfold phase_body, getitem. use_lookup Hld. cbn [mbind result_bind net].
  rewrite Ht. cbn [for_each]. rewrite He. reflexivity.
Qed.

(** X1. A run of at least one epoch whose Train loader yields a batch
    at its first pass never returns: it raises [NameError] at the first
    batch (or a [RuntimeError], when reshaping or comparing that batch
    failed before). *)
Theorem train_network_raises_on_data max_epochs train :
  1 <= max_epochs ->
  dataloaders !! "Train" = Some train ->
  train 0%nat <> [] ->
  exists e,
    train_network max_epochs = Raise e /\
    (e = NameError "sequence_loss" \/ exists msg, e = RuntimeError msg).
Proof. apply first_batch_raises. Qed.

(** X2. Whenever [train_network] returns, the network it returns has the
    parameters it started with, the optimizer its initial state, and
    among the events of the run there is no backward pass and no
    optimizer step. *)
Theorem returned_parameters_initial max_epochs w b ls accs :
  train_network max_epochs = Ok (w, b, ls, accs) ->
  weights w = weights w0 /\
  opt_state w = opt_state w0 /\
  exists evs,
    log w = log w0 ++ evs /\
    Forall (fun ev => ~ updates_parameters ev) evs.
Proof.
  intros H. apply train_network_executed in H
    as (n & st & tl & ta & vl & va & _ & _ & Hex & _ & -> & _).
  apply executed_world in Hex
    as (_ & Hbw & Ho & _ & _ & (evs & Hlog & Hevs) & _).
  cbn [load_state_dict print emit weights opt_state log].
  split; [exact Hbw |]. split; [exact Ho |].
  eexists. split; [rewrite Hlog, <- !app_assoc; reflexivity |].
  apply Forall_app. split; [exact Hevs |].
  repeat (constructor; [intros [E | E]; discriminate |]). constructor.
Qed.

(** X3. With no entry for the Train phase among the loaders, a run of at
    least one epoch raises [KeyError]. *)
Theorem missing_loader_raises max_epochs :
  1 <= max_epochs ->
  dataloaders !! "Train" = None ->
  train_network max_epochs = Raise (KeyError "Train").
Proof.
  intros Hm Hld. apply train_network_first_phase; [exact Hm |].
  unfold phase_body, getitem. use_lookup Hld. reflexivity.
Qed.

(** X4. With an empty first pass over the Train loader and no size
    recorded for the Train phase, a run of at least one epoch raises
    [KeyError]. *)
Theorem missing_size_raises max_epochs train :
  1 <= max_epochs ->
  dataloaders !! "Train" = Some train -> train 0%nat = [] ->
  dataset_sizes !! "Train" = None ->
  train_network max_epochs = Raise (KeyError "Train").
Proof.
  intros Hm Hld Ht Hsz. apply train_network_first_phase; [exact Hm |].
  unfold phase_body, getitem. use_lookup Hld. cbn [mbind result_bind].
  rewrite Ht. cbn [for_each mbind result_bind py_mul]. use_lookup Hsz.
  reflexivity.
Qed.

(** X5. With an empty first pass over the Train loader, a Train size of
    [0] or a window one frame longer than the sequence makes a run of at
    least one epoch raise [ZeroDivisionError]. *)
Theorem zero_windows_raises max_epochs train size :
  1 <= max_epochs ->
  dataloaders !! "Train" = Some train -> train 0%nat = [] ->
  dataset_sizes !! "Train" = Some size ->
  size * (sequence_len - window_size + 1) = 0 ->
  train_network max_epochs = Raise ZeroDivisionError.
Proof.
  intros Hm Hld Ht Hsz Hz. apply train_network_first_phase; [exact Hm |].
  unfold phase_body, getitem. use_lookup Hld. cbn [mbind result_bind].
  rewrite Ht. cbn [for_each mbind result_bind py_mul]. use_lookup Hsz.
  cbn [mbind result_bind py_truediv]. rewrite Hz. unfold int_truediv.
  destruct (Z.eqb_spec size 0) as [-> | Hne]; reflexivity.
Qed.

(** X6. A run of at least one epoch that returns had, at every epoch it
    executed, an empty pass over the Train loader; both phases have a
    loader and a size, and neither size times
    [sequence_len - window_size + 1] is [0]. *)
Theorem return_requires max_epochs w b ls accs :
  1 <= max_epochs ->
  train_network max_epochs = Ok (w, b, ls, accs) ->
  exists train valid size_t size_v va,
    dataloaders !! "Train" = Some train /\
    dataloaders !! "Valid" = Some valid /\
    dataset_sizes !! "Train" = Some size_t /\
    dataset_sizes !! "Valid" = Some size_v /\
    size_t * (sequence_len - window_size + 1) <> 0 /\
    size_v * (sequence_len - window_size + 1) <> 0 /\
    accs !! "Valid" = Some va /\ (0 < length va)%nat /\
    forall i, (i < length va)%nat -> train i = [].
Proof.
  intros Hm H. apply train_network_executed in H
    as (n & st & tl & ta & vl & va & Hn & Hor & Hex & I & _ & _ & _ & ->).
  destruct I as [_ _ _ Iva (_ & _ & _ & L4) _ _ _ Itr _ _].
  assert (0 < n)%nat as Hpos.
  { destruct Hor as [-> | Hp]; [lia |].
    destruct n; [| lia]. destruct va; [| discriminate].
    cbn in Itr. injection Itr as _ Hp0. lia. }
  destruct (executed_requires _ _ _ _ _ gpu w0 n st 0%nat Hex Hpos)
    as (train & valid & size_t & size_v & Ht & _ & Hv & Hst & Hsv & Hnt & Hnv).
  exists train, valid, size_t, size_v, va.
  repeat (split; [assumption || lia |]).
  intros i Hi.
  destruct (executed_requires _ _ _ _ _ gpu w0 n st i Hex ltac:(lia))
    as (train' & _ & _ & _ & Ht' & He & _).
  congruence.
Qed.

(** X7. A run that returns before [max_epochs] epochs executed at least
    20, and none of its last 20 epochs improved strictly on the best
    validation accuracy before it. *)
Theorem early_stop_only_when_stalled max_epochs w b ls accs va :
  train_network max_epochs = Ok (w, b, ls, accs) ->
  accs !! "Valid" = Some va ->
  Z.of_nat (length va) < max_epochs ->
  (20 <= length va)%nat /\
  forall i, (length va - 20 <= i < length va)%nat -> stalled va i.
Proof.
  intros H Hva Hlt. apply train_network_executed in H
    as (n & st & tl & ta & vl & va' & Hn & Hor & Hex & I & _ & _ & _ & ->).
  destruct I as [_ _ _ Iva (_ & _ & _ & L4) _ _ _ Itr _ _].
  assert (va' = va) as -> by congruence.
  destruct Hor as [-> | Hp]; [lia |].
  assert ((tracker va).2 = 20) as Hp' by (by rewrite <- Itr).
  pose proof (tracker_patience_stalled va) as [Hle Hst].
  rewrite Hp' in Hle, Hst. split; [lia |].
  intros i Hi. apply Hst. lia.
Qed.

(** X8. After a run of at least one epoch the network returned is in
    evaluation mode; it is on the GPU when [gpu] is set or it was there
    before. *)
Theorem returned_network_mode max_epochs w b ls accs :
  train_network max_epochs = Ok (w, b, ls, accs) ->
  on_gpu w = gpu || on_gpu w0 /\
  (1 <= max_epochs -> training w = false).
Proof.
  intros H. apply train_network_executed in H
    as (n & st & tl & ta & vl & va & Hn & Hor & Hex & I & -> & _).
  destruct I as [_ _ _ Iva (_ & _ & _ & L4) _ _ _ Itr _ _].
  apply executed_world in Hex as (_ & _ & _ & Hg & Ht & _).
  cbn [load_state_dict print emit on_gpu training].
  split; [exact Hg |]. intros Hm. apply Ht.
  destruct Hor as [-> | Hp]; [lia |].
  destruct n; [| lia]. destruct va; [| discriminate].
  cbn in Itr. injection Itr as _ Hp0. lia.
Qed.

(** X9. In the histories a run returns, every loss and every accuracy of
    the Train phase is the float zero. *)
Theorem train_history_zero max_epochs w b ls accs :
  train_network max_epochs = Ok (w, b, ls, accs) ->
  exists tl ta,
    ls !! "Train" = Some tl /\ accs !! "Train" = Some ta /\
    Forall float_zero tl /\ Forall float_zero ta.
Proof.
  intros H. apply train_network_executed in H
    as (n & st & _ & _ & _ & _ & _ & _ & Hex & _ & _ & _ & -> & ->).
  by apply executed_world in Hex as (_ & _ & _ & _ & _ & _ & Hz).
Qed.
End FurtherProperties.

Section Histories.
Context {px W G O Out Loss : Type}.
Context `{!Collaborators px W G O Out Loss}.
Variable dataloaders : gmap string (@dataloader px).
Variable dataset_sizes : gmap string Z.
Variable batch_size sequence_len window_size : Z.
Variable gpu : bool.
Variable w0 : @world W G O.

#[local] Abbreviation train_network :=
  (train_network dataloaders dataset_sizes batch_size sequence_len
     window_size gpu w0).

(** X10. Allowing more epochs only extends the histories: the lists a
    run of [m] epochs returns are prefixes of those a run of [m' >= m]
    epochs returns. *)
Theorem history_prefix m m' w b ls accs w' b' ls' accs' :
  m <= m' ->
  train_network m = Ok (w, b, ls, accs) ->
  train_network m' = Ok (w', b', ls', accs') ->
  exists tl ta vl va tl' ta' vl' va',
    ls !! "Train" = Some tl /\ accs !! "Train" = Some ta /\
    ls !! "Valid" = Some vl /\ accs !! "Valid" = Some va /\
    ls' !! "Train" = Some tl' /\ accs' !! "Train" = Some ta' /\
    ls' !! "Valid" = Some vl' /\ accs' !! "Valid" = Some va' /\
    tl `prefix_of` tl' /\ ta `prefix_of` ta' /\
    vl `prefix_of` vl' /\ va `prefix_of` va'.
Proof.
  intros Hm H H'.
  apply train_network_executed in H
    as (n & st & tl & ta & vl & va & Hn & Hor & Hex & I & _ & _ & -> & ->).
  apply train_network_executed in H'
    as (n' & st' & tl' & ta' & vl' & va' & Hn' & Hor' & Hex' & I' & _ & _ & -> & ->).
  assert (n <= n')%nat as Hle.
  { destruct (le_lt_dec n n') as [| Hlt]; [done | exfalso].
    destruct Hor' as [-> | Hp']; [lia |].
    destruct (executed_not_stopped _ _ _ _ _ gpu w0 _ _ _ _ Hex Hex' Hlt)
      as [-> | Hne]; [| done].
    inversion Hex'; subst. discriminate Hp'. }
  destruct (executed_prefix _ _ _ _ _ gpu w0 _ _ _ _ _ _ _ _ _ _ _ _
              Hex Hex' Hle I I') as (P1 & P2 & P3 & P4).
  destruct I as [A1 A2 A3 A4 _ _ _ _ _ _ _].
  destruct I' as [B1 B2 B3 B4 _ _ _ _ _ _ _].
  exists tl, ta, vl, va, tl', ta', vl', va'. auto 15.
Qed.
End Histories.

(** ** Further properties of the reshaping *)

Lemma infer_size_windows ws n sh :
  infer_size [-1; ws; 3; 224; 224] n = Ok sh ->
  0 < ws /\ n mod (ws * frame) = 0 /\ sh = [n / (ws * frame); ws; 3; 224; 224].
Proof.
  unfold infer_size. cbn [existsb].
  destruct (Z.ltb_spec ws (-1)) as [Hlt | Hge]; [discriminate |].
  change ((-1 <? -1) || false) with false. cbv iota.
  destruct (decide (ws = -1)) as [-> | Hne]; [discriminate |].
  assert (filter (fun d => d ≠ -1) [-1; ws; 3; 224; 224] = [ws; 3; 224; 224])
    as ->.
  { rewrite filter_cons_False by (intros H; apply H; reflexivity).
    rewrite filter_cons_True by done. reflexivity. }
  assert (filter (fun d => d = -1) [-1; ws; 3; 224; 224] = [-1]) as ->.
  { rewrite filter_cons_True by reflexivity.
    rewrite filter_cons_False by done. reflexivity. }
  cbn [length numel fold_right].
    replace (ws * (3 * (224 * (224 * 1)))) with (ws * frame)
      by (unfold frame; lia).
    destruct (Z.ltb_spec 0 (ws * frame)) as [Hpos | Hnp]; [| discriminate].
    destruct (Z.eqb_spec (n mod (ws * frame)) 0) as [Hmod | Hmod];
      [| discriminate].
    cbn [andb fmap list_fmap]. intros H. injection H as <-.
    split; [unfold frame in Hpos; lia |]. split; [exact Hmod |].
    destruct (Z.eqb_spec ws (-1)); [lia | reflexivity].
Qed.

Lemma reshape_windows_inv {A} (t : tensor A) (ws : Z) (win : tensor A) :
  reshape_windows t ws = Ok win ->
  is_contiguous t = true /\ 0 < ws /\
  numel (shape t) mod (ws * frame) = 0 /\
  win = mkTensor [ws; numel (shape t) / (ws * frame); 3; 224; 224]
          [frame; ws * frame; 224 * 224; 224; 1] (storage t).
Proof.
  unfold reshape_windows, view. intros H. bind_inv H.
  destruct (is_contiguous t); [| discriminate].
  bind_inv E. injection E as <-.
  apply infer_size_windows in E0 as (Hws & Hmod & ->).
  repeat (split; [done |]).
  unfold transpose in H. cbn in H. injection H as <-. reflexivity.
Qed.

Lemma reshape_windows_error {A} (t : tensor A) (ws : Z) (e : exn) :
  reshape_windows t ws = Raise e -> exists msg, e = RuntimeError msg.
Proof.
  unfold reshape_windows. intros E.
  destruct (view t _) as [v | e'] eqn:Ev.
  - cbn [mbind result_bind] in E. unfold transpose in E.
    destruct (_ && _); [discriminate | injection E as <-; eauto].
  - cbn [mbind result_bind] in E. injection E as <-.
    unfold view in Ev. destruct (is_contiguous _);
      [| injection Ev as <-; eauto].
    destruct (infer_size _ _) as [sh | e''] eqn:Es; [discriminate |].
    cbn [mbind result_bind] in Ev. injection Ev as <-.
    unfold infer_size in Es.
    repeat match type of Es with
      | (if ?c then _ else _) = _ => destruct c
      | match ?c with _ => _ end = _ => destruct c
      end; try discriminate; injection Es as <-; eauto.
Qed.

(** X11. A contiguous raw batch can be reshaped exactly when
    [window_size] is positive and the number of its elements is a
    multiple of [window_size * 3 * 224 * 224]; the result then has
    [window_size] steps of as many windows as that multiple, and otherwise
    the exception raised is a [RuntimeError]. *)
Theorem reshape_windows_defined {A} (t : tensor A) (window_size : Z) :
  is_contiguous t = true ->
  ((exists win, reshape_windows t window_size = Ok win) <->
   0 < window_size /\ numel (shape t) mod (window_size * frame) = 0) /\
  (forall win, reshape_windows t window_size = Ok win ->
     shape win =
       [window_size; numel (shape t) / (window_size * frame); 3; 224; 224]) /\
  (forall e, reshape_windows t window_size = Raise e ->
     exists msg, e = RuntimeError msg).
Proof.
  intros Hc. split; [split |].
  - intros (win & H). apply reshape_windows_inv in H. tauto.
  - intros (Hws & Hmod).
    destruct (reshape_windows_flat t
                (numel (shape t) / (window_size * frame)) window_size Hc Hws)
      as (win & Hwin & _); [| by exists win].
    assert (window_size * frame <> 0) as Hne by (unfold frame; lia).
    pose proof (Z.div_mod (numel (shape t)) (window_size * frame) Hne).
    lia.
  - split; [| apply reshape_windows_error].
    intros win H. by apply reshape_windows_inv in H as (_ & _ & _ & ->).
Qed.

(** X12. The window tensor is a view of the raw batch: it shares its
    storage, has as many elements, and its indices address every element
    of the raw batch exactly once. *)
Theorem reshape_windows_bijective {A} (t : tensor A) (window_size : Z)
    (win : tensor A) :
  reshape_windows t window_size = Ok win ->
  storage win = storage t /\
  numel (shape win) = numel (shape t) /\
  (forall idx idx',
     in_range (shape win) idx -> in_range (shape win) idx' ->
     flat_index (strides win) idx = flat_index (strides win) idx' ->
     idx = idx') /\
  (forall k, 0 <= k < numel (shape t) ->
     exists idx, in_range (shape win) idx /\
       flat_index (strides win) idx = k).
Proof.
  intros H. apply reshape_windows_inv in H as (_ & Hws & Hmod & ->).
  cbn [shape strides storage].
  set (n := numel (shape t) / (window_size * frame)).
  assert (numel (shape t) = n * window_size * frame) as Hn.
  { assert (window_size * frame <> 0) as Hne by (unfold frame; lia).
    pose proof (Z.div_mod (numel (shape t)) (window_size * frame) Hne).
    subst n. lia. }
  split; [reflexivity |]. split; [cbn; unfold frame in *; lia |]. split.
  - intros idx idx' Hi Hi'.
    apply Forall2_cons_inv_l in Hi as (w & r & Hw & Hi & ->).
    apply Forall2_cons_inv_l in Hi as (b & r' & Hb & Hi & ->).
    apply Forall2_cons_inv_l in Hi as (c & r & Hc & Hi & ->).
    apply Forall2_cons_inv_l in Hi as (h & r' & Hh & Hi & ->).
    apply Forall2_cons_inv_l in Hi as (x & r & Hx & Hi & ->).
    apply Forall2_nil_inv_l in Hi as ->.
    apply Forall2_cons_inv_l in Hi' as (w' & r & Hw' & Hi' & ->).
    apply Forall2_cons_inv_l in Hi' as (b' & r' & Hb' & Hi' & ->).
    apply Forall2_cons_inv_l in Hi' as (c' & r & Hc' & Hi' & ->).
    apply Forall2_cons_inv_l in Hi' as (h' & r' & Hh' & Hi' & ->).
    apply Forall2_cons_inv_l in Hi' as (x' & r & Hx' & Hi' & ->).
    apply Forall2_nil_inv_l in Hi' as ->.
    cbn [flat_index]. unfold frame. intros E.
    assert (224 * (224 * (3 * (b * window_size + w) + c) + h) + x =
            224 * (224 * (3 * (b' * window_size + w') + c') + h') + x') as E1
      by lia.
    apply Z.div_mod_unique in E1 as [E2 ->]; [| lia | lia].
    apply Z.div_mod_unique in E2 as [E3 ->]; [| lia | lia].
    apply Z.div_mod_unique in E3 as [E4 ->]; [| lia | lia].
    assert (window_size * b + w = window_size * b' + w') as E5 by lia.
    apply Z.div_mod_unique in E5 as [-> ->]; [| lia | lia].
    reflexivity.
  - intros k Hk.
    assert (0 < frame) as Hf by (unfold frame; lia).
    exists [(k / frame) mod window_size; k / frame / window_size;
            (k / (224 * 224)) mod 3; (k / 224) mod 224; k mod 224].
    split.
    + assert (0 <= k / frame < n * window_size) as Hkf.
      { split; [apply Z.div_pos; lia |].
        apply Z.div_lt_upper_bound; lia. }
      unfold in_range. repeat constructor;
        try (apply Z.mod_pos_bound; lia); try (apply Z.div_pos; lia).
      apply Z.div_lt_upper_bound; lia.
    + cbn [flat_index]. unfold frame in *.
      pose proof (Z.div_mod k 224 ltac:(lia)).
      pose proof (Z.div_mod (k / 224) 224 ltac:(lia)).
      pose proof (Z.div_mod (k / 224 / 224) 3 ltac:(lia)).
      pose proof (Z.div_mod (k / (3 * 224 * 224)) window_size ltac:(lia)).
      rewrite <- !Z.div_div in * by lia.
      replace (k / 3 / 224 / 224) with (k / 224 / 224 / 3) in *
        by (rewrite !Z.div_div by lia; f_equal).
      lia.
Qed.


(** The literal [1e-4] is the double nearest to [1 / 10000]. *)
Example learning_rate_value : int_truediv 1 10000 = Ok learning_rate.
Proof. vm_compute. reflexivity. Qed.

(** ** The script *)

Section MainProperties.
Context {px W G O Out Loss : Type}.
Context `{!Collaborators px W G O Out Loss}.
Variable cuda_is_available : bool.
Variable get_loaders :
  string -> string -> Z -> Z -> Z -> bool -> Z -> bool ->
  result (gmap string (@dataloader px) * gmap string Z).
Variable SingleStream : string -> Z -> Z -> bool -> W * G.
Variable Adam : W -> spec_float -> O.

Lemma main_unfold dataloaders dataset_sizes :
  get_loaders "data/train_data.txt" "data/valid_data.txt" 2 50 5 false 2
    cuda_is_available = Ok (dataloaders, dataset_sizes) ->
  main cuda_is_available get_loaders SingleStream Adam =
    '(net', val_acc, losses, accuracies) ←
      train_network dataloaders dataset_sizes 2 50 5 cuda_is_available
        (mkWorld (SingleStream "VGGNet19" 512 1 true).1
           (SingleStream "VGGNet19" 512 1 true).2
           (Adam (SingleStream "VGGNet19" 512 1 true).1 learning_rate)
           true false []) 1;
    Ok [MainPrintNet (SingleStream "VGGNet19" 512 1 true).1;
        MainPlot losses accuracies "outputs/online/SingleStreamAppPlots.png";
        MainSave (weights net') "outputs/online/SingleStreamAppParams.pkl"].
Proof.
  intros H. unfold main. rewrite H. cbn [mbind result_bind].
  destruct (SingleStream "VGGNet19" 512 1 true) as [wts no_grads].
  reflexivity.
Qed.

(** [main_trace] ends as [main] does, and with the events of [main] when
    it completes. *)
Lemma main_trace_result :
  main cuda_is_available get_loaders SingleStream Adam =
    match main_trace cuda_is_available get_loaders SingleStream Adam with
    | (evs, None) => Ok evs
    | (_, Some e) => Raise e
    end.
Proof.
  unfold main, main_trace.
  destruct (get_loaders _ _ _ _ _ _ _ _) as [[dataloaders dataset_sizes] | e];
    [| reflexivity].
  cbn [mbind result_bind].
  destruct (SingleStream _ _ _ _) as [wts no_grads].
  destruct (train_network _ _ _ _ _ _ _ _) as [[[[w b] ls] accs] | e];
    reflexivity.
Qed.

(** X13. When the Train loader that [get_loaders] returns yields a batch
    at its first pass, [main] raises ([NameError], or [RuntimeError] when
    the batch could not be reshaped or compared) after it has printed the
    network: the exception ends the script before anything is plotted or
    saved. *)
Theorem main_raises_on_data dataloaders dataset_sizes train :
  get_loaders "data/train_data.txt" "data/valid_data.txt" 2 50 5 false 2
    cuda_is_available = Ok (dataloaders, dataset_sizes) ->
  dataloaders !! "Train" = Some train ->
  train 0%nat <> [] ->
  exists e,
    main cuda_is_available get_loaders SingleStream Adam = Raise e /\
    (e = NameError "sequence_loss" \/ exists msg, e = RuntimeError msg) /\
    main_trace cuda_is_available get_loaders SingleStream Adam =
      ([MainPrintNet (SingleStream "VGGNet19" 512 1 true).1], Some e).
Proof.
  intros Hg Hld Hne.
  destruct (first_batch_raises dataloaders dataset_sizes 2 50 5
              cuda_is_available
              (mkWorld (SingleStream "VGGNet19" 512 1 true).1
                 (SingleStream "VGGNet19" 512 1 true).2
                 (Adam (SingleStream "VGGNet19" 512 1 true).1 learning_rate)
                 true false []) 1 train ltac:(lia) Hld Hne)
    as (e & He & Hor).
  assert (main_trace cuda_is_available get_loaders SingleStream Adam =
            ([MainPrintNet (SingleStream "VGGNet19" 512 1 true).1], Some e))
    as Htr.
  { unfold main_trace. rewrite Hg.
    destruct (SingleStream "VGGNet19" 512 1 true) as [wts no_grads].
    cbn [fst snd] in He. rewrite He. reflexivity. }
  exists e. split; [| split; [exact Hor | exact Htr]].
  rewrite main_trace_result, Htr. reflexivity.
Qed.

(** X14. When [main] completes, it has printed the network, plotted
    histories of one epoch under [outputs/online/SingleStreamAppPlots.png]
    and saved under [outputs/online/SingleStreamAppParams.pkl] the
    parameters [SingleStream] was built with, unchanged. *)
Theorem main_saves_initial_parameters evs :
  main cuda_is_available get_loaders SingleStream Adam = Ok evs ->
  exists ls accs el_t ea_t el_v ea_v,
    evs = [MainPrintNet (SingleStream "VGGNet19" 512 1 true).1;
           MainPlot ls accs "outputs/online/SingleStreamAppPlots.png";
           MainSave (SingleStream "VGGNet19" 512 1 true).1
             "outputs/online/SingleStreamAppParams.pkl"] /\
    ls !! "Train" = Some [el_t] /\ accs !! "Train" = Some [ea_t] /\
    ls !! "Valid" = Some [el_v] /\ accs !! "Valid" = Some [ea_v].
Proof.
  intros H.
  destruct (get_loaders "data/train_data.txt" "data/valid_data.txt" 2 50 5
              false 2 cuda_is_available) as [[dataloaders dataset_sizes] | e]
    eqn:Hg; [| unfold main in H; rewrite Hg in H; discriminate H].
  rewrite (main_unfold _ _ Hg) in H. bind_inv H.
  destruct a as [[[w b] ls] accs]. injection H as <-.
  apply train_network_executed in E
    as (n & st & tl & ta & vl & va & Hn & Hor & Hex & I & -> & _ & -> & ->).
  apply executed_world in Hex as (_ & Hw & _).
  destruct I as [Itl Ita Ivl Iva (L1 & L2 & L3 & L4) _ _ _ Itr _ _].
  assert (n = 1%nat) as ->.
  { destruct Hor as [-> | Hp]; [reflexivity |].
    destruct n; [| lia]. destruct va; [| discriminate].
    cbn in Itr. injection Itr as _ Hp0. lia. }
  destruct tl as [| el_t [| ? ?]]; try discriminate.
  destruct ta as [| ea_t [| ? ?]]; try discriminate.
  destruct vl as [| el_v [| ? ?]]; try discriminate.
  destruct va as [| ea_v [| ? ?]]; try discriminate.
  exists (losses st), (accuracies st), el_t, ea_t, el_v, ea_v.
  cbn [load_state_dict emit weights]. rewrite Hw. cbn [weights]. auto 10.
Qed.
End MainProperties.

(** ** Further properties of batches, phases and epochs *)

Lemma binary_round_aux_sign p e_max s m e l :
  binary_round_aux p e_max s m e l = S754_nan \/
  binary_round_aux p e_max s m e l = S754_zero s \/
  binary_round_aux p e_max s m e l = S754_infinity s \/
  exists m' e', binary_round_aux p e_max s m e l = S754_finite s m' e'.
Proof.
  unfold binary_round_aux.
  destruct (shr_fexp p e_max m e l) as [mrs' e'].
  destruct (shr_fexp p e_max _ e' loc_Exact) as [mrs'' e''].
  destruct (shr_m mrs'') as [| q | q]; [auto | | auto].
  destruct (e'' <=? e_max - p); eauto 6.
Qed.

Lemma int_truediv_nonnegative a b f :
  int_truediv a b = Ok f -> 0 <= a -> 0 < b ->
  py_gt (PyInt 0) (PyFloat f) = false.
Proof.
  intros H Ha Hb. pose proof (int_truediv_not_nan _ _ _ H) as Hnan.
  unfold int_truediv in H.
  destruct (b =? 0); [discriminate |].
  destruct (Z.eqb_spec a 0) as [-> | Hne].
  { injection H as <-. reflexivity. }
  destruct (is_infinity _) eqn:Hinf; [discriminate |]. injection H as <-.
  unfold SFdiv in *. destruct (SFdiv_core_binary _ _ _ _ _ _) as [[mz ez] lz].
  destruct (Z.ltb_spec a 0); [lia |]. destruct (Z.ltb_spec b 0); [lia |].
  cbn [xorb] in *.
  destruct (binary_round_aux_sign prec emax false mz ez lz)
    as [E | [E | [E | (m' & e' & E)]]]; rewrite E in *;
    try discriminate; [reflexivity |].
  apply not_true_is_false. rewrite py_gt_key by done.
  unfold key_lt. cbn. lia.
Qed.

Lemma torch_sum_nonnegative mask : 0 <= torch_sum mask.
Proof. unfold torch_sum. lia. Qed.

Section BatchesAndEpochs.
Context {px W G O Out Loss : Type}.
Context `{!Collaborators px W G O Out Loss}.
Variable dataloaders : gmap string (@dataloader px).
Variable dataset_sizes : gmap string Z.
Variable batch_size sequence_len window_size : Z.

Implicit Types (w : @world W G O) (st : @loop_state W G O).
Implicit Types (data : @batch px).

Lemma batch_values_nonnegative w (bs : list (@batch px)) vs :
  Forall2 (batch_values window_size w) bs vs -> 0 <= foldr Z.add 0 vs.*2.
Proof.
  induction 1 as [| data v bs vs (inputs & mask & _ & _ & ->) _ IH];
    [done |].
  cbn. pose proof (torch_sum_nonnegative mask). lia.
Qed.

#[local] Abbreviation phase_body :=
  (phase_body dataloaders dataset_sizes batch_size sequence_len window_size).
#[local] Abbreviation epoch_body :=
  (epoch_body dataloaders dataset_sizes batch_size sequence_len window_size).

(** X15. With a positive dataset size and windows no longer than the
    sequence, the accuracy a phase records is never negative. *)
Theorem recorded_accuracy_nonnegative epoch phase st st' size :
  phase_body epoch phase st = Ok st' ->
  dataset_sizes !! phase = Some size ->
  0 < size -> window_size <= sequence_len ->
  exists old acc,
    accuracies st !! phase = Some old /\
    accuracies st' !! phase = Some (old ++ [acc]) /\
    py_gt (PyInt 0) acc = false.
Proof.
  intros H Hsz Hpos Hws. apply phase_body_Ok in H
    as (loader & w & rl & rc & size' & scaled & el & ea & ls & old
        & _ & Hb & Hsz' & _ & _ & Hea & _ & Hold & _ & _ & Ha & _).
  assert (size' = size) as -> by congruence.
  apply batches_Ok in Hb as (_ & _ & _ & _ & _ & vs & Hvs & _ & ->).
  apply batch_values_nonnegative in Hvs.
  exists old, ea. split; [exact Hold |].
  split; [rewrite Ha; apply lookup_insert_eq |].
  cbn [py_truediv] in Hea. bind_inv Hea. injection Hea as <-.
  eapply int_truediv_nonnegative; [exact E | lia | nia].
Qed.

(** X16. A batch of the Valid phase clears the gradients, as a batch of
    the Train phase would, and leaves the mode and the device of the
    network as they were. *)
Theorem valid_batch_clears_gradients data w rl rc w' rl' rc' :
  batch_body window_size "Valid" data (w, rl, rc) = Ok (w', rl', rc') ->
  grads w' = zero_grad (grads w) /\
  training w' = training w /\
  on_gpu w' = on_gpu w.
Proof.
  intros H. apply batch_body_Ok in H as (_ & -> & _). by cbn.
Qed.

(** X17. One epoch steps the checkpoint tracker once, on the accuracy of
    its Valid phase: a strictly greater accuracy becomes the best one,
    the parameters of the network are copied and the patience is reset
    to [0]; otherwise the best accuracy and the snapshot stay and the
    patience grows by one. *)
Theorem epoch_steps_tracker epoch st st' :
  epoch_body epoch st = Ok st' ->
  exists va acc,
    accuracies st !! "Valid" = Some va /\
    accuracies st' !! "Valid" = Some (va ++ [acc]) /\
    if py_gt acc (best_acc st)
    then best_acc st' = acc /\ best_model_wts st' = weights (net st') /\
         patience st' = 0
    else best_acc st' = best_acc st /\
         best_model_wts st' = best_model_wts st /\
         patience st' = patience st + 1.
Proof.
  intros H. apply epoch_body_Ok in H
    as (tl & ta & vl & va & el_t & ea_t & el_v & ea_v
        & _ & _ & _ & Hva & _ & Ha & _ & _ & Htr).
  exists va, ea_v. split; [exact Hva |].
  split; [rewrite Ha; apply lookup_insert_eq |].
  destruct (py_gt ea_v (best_acc st)); injection Htr as -> -> ->; auto.
Qed.
End BatchesAndEpochs.

Lemma recorded_accuracy_nonnegative_witness :
  Toy.half_phase = Ok Toy.half_done /\
  Toy.half_sizes !! "Valid" = Some 10 /\
  0 < 10 /\ 5 <= 50 /\
  exists old acc,
    accuracies Toy.half_state !! "Valid" = Some old /\
    accuracies Toy.half_done !! "Valid" = Some (old ++ [acc]) /\
    py_gt (PyInt 0) acc = false.
Proof.
  assert (Toy.half_phase = Ok Toy.half_done) as H by (vm_compute; reflexivity).
  assert (Toy.half_sizes !! "Valid" = Some 10) as Hsz by reflexivity.
  split; [exact H |]. split; [exact Hsz |]. split; [lia |]. split; [lia |].
  exact (recorded_accuracy_nonnegative _ _ _ _ _ _ _ _ _ 10 H Hsz
           ltac:(lia) ltac:(lia)).
Defined.

Lemma valid_batch_clears_gradients_witness :
  batch_body 5 "Valid" (Toy.toy_batch 1 4 [0; 0; 0; 0])
    (Toy.toy_world, PyInt 0, 0)
    = Ok (Toy.valid_step.1.1, Toy.valid_step.1.2, Toy.valid_step.2) /\
  grads Toy.valid_step.1.1 = zero_grad (grads Toy.toy_world) /\
  training Toy.valid_step.1.1 = training Toy.toy_world /\
  on_gpu Toy.valid_step.1.1 = on_gpu Toy.toy_world.
Proof.
  assert (batch_body 5 "Valid" (Toy.toy_batch 1 4 [0; 0; 0; 0])
            (Toy.toy_world, PyInt 0, 0)
          = Ok (Toy.valid_step.1.1, Toy.valid_step.1.2, Toy.valid_step.2))
    as H by (vm_compute; reflexivity).
  split; [exact H |].
  exact (valid_batch_clears_gradients 5 _ _ _ _ _ _ _ H).
Defined.

Lemma epoch_steps_tracker_witness :
  ToyRuns.first_epoch = Ok ToyRuns.first_epoch_done /\
  exists va acc,
    accuracies (initial_state false Toy.toy_world) !! "Valid" = Some va /\
    accuracies ToyRuns.first_epoch_done !! "Valid" = Some (va ++ [acc]) /\
    if py_gt acc (best_acc (initial_state false Toy.toy_world))
    then best_acc ToyRuns.first_epoch_done = acc /\
         best_model_wts ToyRuns.first_epoch_done
           = weights (net ToyRuns.first_epoch_done) /\
         patience ToyRuns.first_epoch_done = 0
    else best_acc ToyRuns.first_epoch_done
           = best_acc (initial_state false Toy.toy_world) /\
         best_model_wts ToyRuns.first_epoch_done
           = best_model_wts (initial_state false Toy.toy_world) /\
         patience ToyRuns.first_epoch_done
           = patience (initial_state false Toy.toy_world) + 1.
Proof.
  assert (ToyRuns.first_epoch = Ok ToyRuns.first_epoch_done) as H
    by (vm_compute; reflexivity).
  split; [exact H |].
  exact (epoch_steps_tracker _ _ _ _ _ _ _ _ H).
Defined.

(** ** The further properties on the small instance *)

Lemma varying_run_outcome :
  train_network (Toy.toy_loaders Toy.no_batches Toy.varying_valid)
    Toy.toy_sizes 1 5 5 false Toy.toy_world 4
  = Ok (Toy.varying_outcome.1.1.1, Toy.varying_outcome.1.1.2,
        Toy.varying_outcome.1.2, Toy.varying_outcome.2).
Proof. vm_compute. reflexivity. Qed.

Lemma short_run_outcome :
  train_network (Toy.toy_loaders Toy.no_batches Toy.varying_valid)
    Toy.toy_sizes 1 5 5 false Toy.toy_world 2
  = Ok (ToyRuns.short_outcome.1.1.1, ToyRuns.short_outcome.1.1.2,
        ToyRuns.short_outcome.1.2, ToyRuns.short_outcome.2).
Proof. vm_compute. reflexivity. Qed.

Lemma constant_run_outcome :
  train_network (Toy.toy_loaders Toy.no_batches Toy.constant_valid)
    Toy.toy_sizes 1 5 5 false Toy.toy_world 30
  = Ok (Toy.constant_outcome.1.1.1, Toy.constant_outcome.1.1.2,
        Toy.constant_outcome.1.2, Toy.constant_outcome.2).
Proof. vm_compute. reflexivity. Qed.

Lemma train_network_raises_on_data_witness :
  1 <= 1 /\
  Toy.toy_loaders Toy.constant_valid Toy.constant_valid !! "Train"
    = Some Toy.constant_valid /\
  Toy.constant_valid 0%nat <> [] /\
  exists e,
    train_network (Toy.toy_loaders Toy.constant_valid Toy.constant_valid)
      Toy.toy_sizes 1 5 5 false Toy.toy_world 1 = Raise e /\
    (e = NameError "sequence_loss" \/ exists msg, e = RuntimeError msg).
Proof.
  assert (Toy.toy_loaders Toy.constant_valid Toy.constant_valid !! "Train"
          = Some Toy.constant_valid) as Hld by reflexivity.
  assert (Toy.constant_valid 0%nat <> []) as Hne by discriminate.
  split; [lia |]. split; [exact Hld |]. split; [exact Hne |].
  exact (train_network_raises_on_data _ Toy.toy_sizes 1 5 5 false
           Toy.toy_world 1 _ ltac:(lia) Hld Hne).
Defined.

Lemma returned_parameters_initial_witness :
  Toy.varying_run = Ok Toy.varying_outcome /\
  weights Toy.varying_outcome.1.1.1 = weights Toy.toy_world /\
  opt_state Toy.varying_outcome.1.1.1 = opt_state Toy.toy_world /\
  exists evs,
    log Toy.varying_outcome.1.1.1 = log Toy.toy_world ++ evs /\
    Forall (fun ev => ~ updates_parameters ev) evs.
Proof.
  split; [vm_compute; reflexivity |].
  exact (returned_parameters_initial _ _ _ _ _ _ _ _ _ _ _ _
           varying_run_outcome).
Defined.

Lemma missing_loader_raises_witness :
  1 <= 3 /\
  (∅ : gmap string (@dataloader Z)) !! "Train" = None /\
  train_network (∅ : gmap string (@dataloader Z)) Toy.toy_sizes 1 5 5 false
    Toy.toy_world 3 = Raise (KeyError "Train").
Proof.
  split; [lia |]. split; [reflexivity |].
  apply missing_loader_raises; [lia | reflexivity].
Defined.

Lemma missing_size_raises_witness :
  1 <= 3 /\
  Toy.toy_loaders Toy.no_batches Toy.constant_valid !! "Train"
    = Some Toy.no_batches /\
  Toy.no_batches 0%nat = [] /\
  (∅ : gmap string Z) !! "Train" = None /\
  train_network (Toy.toy_loaders Toy.no_batches Toy.constant_valid) ∅ 1 5 5
    false Toy.toy_world 3 = Raise (KeyError "Train").
Proof.
  split; [lia |]. split; [reflexivity |]. split; [reflexivity |].
  split; [reflexivity |].
  apply (missing_size_raises _ _ _ _ _ _ _ _ Toy.no_batches);
    [lia | reflexivity | reflexivity | reflexivity].
Defined.

Lemma zero_windows_raises_witness :
  1 <= 3 /\
  Toy.toy_loaders Toy.no_batches Toy.constant_valid !! "Train"
    = Some Toy.no_batches /\
  Toy.no_batches 0%nat = [] /\
  Toy.toy_sizes !! "Train" = Some 4 /\
  4 * (5 - 6 + 1) = 0 /\
  train_network (Toy.toy_loaders Toy.no_batches Toy.constant_valid)
    Toy.toy_sizes 1 5 6 false Toy.toy_world 3 = Raise ZeroDivisionError.
Proof.
  split; [lia |]. split; [reflexivity |]. split; [reflexivity |].
  split; [reflexivity |]. split; [reflexivity |].
  apply (zero_windows_raises _ _ _ _ _ _ _ _ Toy.no_batches 4);
    [lia | reflexivity | reflexivity | reflexivity | reflexivity].
Defined.

Lemma return_requires_witness :
  1 <= 4 /\
  Toy.varying_run = Ok Toy.varying_outcome /\
  exists train valid size_t size_v va,
    Toy.toy_loaders Toy.no_batches Toy.varying_valid !! "Train" = Some train /\
    Toy.toy_loaders Toy.no_batches Toy.varying_valid !! "Valid" = Some valid /\
    Toy.toy_sizes !! "Train" = Some size_t /\
    Toy.toy_sizes !! "Valid" = Some size_v /\
    size_t * (5 - 5 + 1) <> 0 /\
    size_v * (5 - 5 + 1) <> 0 /\
    Toy.varying_outcome.2 !! "Valid" = Some va /\ (0 < length va)%nat /\
    forall i, (i < length va)%nat -> train i = [].
Proof.
  split; [lia |]. split; [vm_compute; reflexivity |].
  eapply return_requires; [| exact varying_run_outcome]. lia.
Defined.

Lemma early_stop_only_when_stalled_witness :
  Toy.constant_run = Ok Toy.constant_outcome /\
  Toy.constant_outcome.2 !! "Valid"
    = Some (default [] (Toy.constant_outcome.2 !! "Valid")) /\
  Z.of_nat (length (default [] (Toy.constant_outcome.2 !! "Valid"))) < 30 /\
  (20 <= length (default [] (Toy.constant_outcome.2 !! "Valid")))%nat /\
  forall i,
    (length (default [] (Toy.constant_outcome.2 !! "Valid")) - 20 <= i
     < length (default [] (Toy.constant_outcome.2 !! "Valid")))%nat ->
    stalled (default [] (Toy.constant_outcome.2 !! "Valid")) i.
Proof.
  assert (Toy.constant_outcome.2 !! "Valid"
          = Some (default [] (Toy.constant_outcome.2 !! "Valid"))) as Hva
    by (vm_compute; reflexivity).
  assert (Z.of_nat (length (default [] (Toy.constant_outcome.2 !! "Valid")))
          < 30) as Hlt by (vm_compute; reflexivity).
  split; [vm_compute; reflexivity |]. split; [exact Hva |].
  split; [exact Hlt |].
  exact (early_stop_only_when_stalled _ _ _ _ _ _ _ _ _ _ _ _ _
           constant_run_outcome Hva Hlt).
Defined.

Lemma returned_network_mode_witness :
  Toy.varying_run = Ok Toy.varying_outcome /\
  on_gpu Toy.varying_outcome.1.1.1 = false || on_gpu Toy.toy_world /\
  (1 <= 4 -> training Toy.varying_outcome.1.1.1 = false).
Proof.
  split; [vm_compute; reflexivity |].
  exact (returned_network_mode _ _ _ _ _ _ _ _ _ _ _ _ varying_run_outcome).
Defined.

Lemma train_history_zero_witness :
  Toy.varying_run = Ok Toy.varying_outcome /\
  exists tl ta,
    Toy.varying_outcome.1.2 !! "Train" = Some tl /\
    Toy.varying_outcome.2 !! "Train" = Some ta /\
    Forall float_zero tl /\ Forall float_zero ta.
Proof.
  split; [vm_compute; reflexivity |].
  exact (train_history_zero _ _ _ _ _ _ _ _ _ _ _ _ varying_run_outcome).
Defined.

Lemma history_prefix_witness :
  2 <= 4 /\
  ToyRuns.short_run = Ok ToyRuns.short_outcome /\
  Toy.varying_run = Ok Toy.varying_outcome /\
  exists tl ta vl va tl' ta' vl' va',
    ToyRuns.short_outcome.1.2 !! "Train" = Some tl /\
    ToyRuns.short_outcome.2 !! "Train" = Some ta /\
    ToyRuns.short_outcome.1.2 !! "Valid" = Some vl /\
    ToyRuns.short_outcome.2 !! "Valid" = Some va /\
    Toy.varying_outcome.1.2 !! "Train" = Some tl' /\
    Toy.varying_outcome.2 !! "Train" = Some ta' /\
    Toy.varying_outcome.1.2 !! "Valid" = Some vl' /\
    Toy.varying_outcome.2 !! "Valid" = Some va' /\
    tl `prefix_of` tl' /\ ta `prefix_of` ta' /\
    vl `prefix_of` vl' /\ va `prefix_of` va'.
Proof.
  split; [lia |]. split; [vm_compute; reflexivity |].
  split; [vm_compute; reflexivity |].
  eapply history_prefix;
    [| exact short_run_outcome | exact varying_run_outcome]. lia.
Defined.

Lemma reshape_windows_defined_witness :
  is_contiguous Toy.six_frames = true /\
  reshape_windows Toy.six_frames 3 = Ok ToyRuns.six_windows /\
  shape ToyRuns.six_windows = [3; 2; 3; 224; 224] /\
  reshape_windows Toy.six_frames 4
    = Raise (RuntimeError "size is invalid for input") /\
  ((exists win, reshape_windows Toy.six_frames 4 = Ok win) <->
   0 < 4 /\ numel (shape Toy.six_frames) mod (4 * frame) = 0) /\
  ((exists win, reshape_windows Toy.six_frames 3 = Ok win) <->
   0 < 3 /\ numel (shape Toy.six_frames) mod (3 * frame) = 0) /\
  (forall win, reshape_windows Toy.six_frames 3 = Ok win ->
     shape win =
       [3; numel (shape Toy.six_frames) / (3 * frame); 3; 224; 224]) /\
  (forall e, reshape_windows Toy.six_frames 3 = Raise e ->
     exists msg, e = RuntimeError msg).
Proof.
  assert (is_contiguous Toy.six_frames = true) as Hc by reflexivity.
  split; [exact Hc |]. split; [reflexivity |]. split; [reflexivity |].
  split; [reflexivity |].
  split; [exact (proj1 (reshape_windows_defined Toy.six_frames 4 Hc)) |].
  exact (reshape_windows_defined Toy.six_frames 3 Hc).
Defined.

Lemma reshape_windows_bijective_witness :
  reshape_windows Toy.six_frames 3 = Ok ToyRuns.six_windows /\
  storage ToyRuns.six_windows = storage Toy.six_frames /\
  numel (shape ToyRuns.six_windows) = numel (shape Toy.six_frames) /\
  (forall idx idx',
     in_range (shape ToyRuns.six_windows) idx ->
     in_range (shape ToyRuns.six_windows) idx' ->
     flat_index (strides ToyRuns.six_windows) idx
       = flat_index (strides ToyRuns.six_windows) idx' ->
     idx = idx') /\
  (forall k, 0 <= k < numel (shape Toy.six_frames) ->
     exists idx, in_range (shape ToyRuns.six_windows) idx /\
       flat_index (strides ToyRuns.six_windows) idx = k).
Proof.
  assert (reshape_windows Toy.six_frames 3 = Ok ToyRuns.six_windows) as H
    by reflexivity.
  split; [exact H |].
  exact (reshape_windows_bijective _ _ _ H).
Defined.

Lemma main_raises_on_data_witness :
  ToyRuns.get_training "data/train_data.txt" "data/valid_data.txt" 2 50 5
    false 2 true
    = Ok (Toy.toy_loaders Toy.half_valid Toy.half_valid, Toy.half_sizes) /\
  Toy.toy_loaders Toy.half_valid Toy.half_valid !! "Train"
    = Some Toy.half_valid /\
  Toy.half_valid 0%nat <> [] /\
  main_trace true ToyRuns.get_training ToyRuns.build_net
    ToyRuns.build_optimizer
    = ([MainPrintNet 7], Some (NameError "sequence_loss")) /\
  exists e,
    main true ToyRuns.get_training ToyRuns.build_net ToyRuns.build_optimizer
      = Raise e /\
    (e = NameError "sequence_loss" \/ exists msg, e = RuntimeError msg) /\
    main_trace true ToyRuns.get_training ToyRuns.build_net
      ToyRuns.build_optimizer
      = ([MainPrintNet (ToyRuns.build_net "VGGNet19" 512 1 true).1], Some e).
Proof.
  assert (Toy.toy_loaders Toy.half_valid Toy.half_valid !! "Train"
          = Some Toy.half_valid) as Hld by reflexivity.
  assert (Toy.half_valid 0%nat <> []) as Hne by discriminate.
  split; [reflexivity |]. split; [exact Hld |]. split; [exact Hne |].
  split; [vm_compute; reflexivity |].
  exact (main_raises_on_data true ToyRuns.get_training ToyRuns.build_net
           ToyRuns.build_optimizer _ _ _ eq_refl Hld Hne).
Defined.

Lemma main_saves_initial_parameters_witness :
  ToyRuns.quiet_main = Ok ToyRuns.quiet_main_events /\
  exists ls accs el_t ea_t el_v ea_v,
    ToyRuns.quiet_main_events =
      [MainPrintNet 7;
       MainPlot ls accs "outputs/online/SingleStreamAppPlots.png";
       MainSave 7 "outputs/online/SingleStreamAppParams.pkl"] /\
    ls !! "Train" = Some [el_t] /\ accs !! "Train" = Some [ea_t] /\
    ls !! "Valid" = Some [el_v] /\ accs !! "Valid" = Some [ea_v].
Proof.
  assert (ToyRuns.quiet_main = Ok ToyRuns.quiet_main_events) as H
    by (vm_compute; reflexivity).
  split; [exact H |].
  exact (main_saves_initial_parameters true ToyRuns.get_no_training
           ToyRuns.build_net ToyRuns.build_optimizer _ H).
Defined.
